(** * Bond-spread arbitrage: estimator, backtest and risk analytics

    A shallow embedding of
      - [src/strategies/bond_arb_strategy.py]  (BayesianBondArbStrategy),
      - [src/utils/indicators.py]              (z-scores, moving averages),
      - [risk/risk_metrics.py]                 (StrategyRiskAnalyzer),
      - [research/backtesting.py]              (BondArbBacktest),
      - [data/data_pipeline.py]                (OUJSimulator, the
                                                deterministic parts),
    and the properties of these functions.

    Numbers.  A Python/NumPy float is modelled by [npfloat]: an exact real
    number or one of the IEEE special values +inf, -inf, NaN.  Arithmetic on
    finite values is exact (rounding, overflow and the sign of zero are
    abstracted away); what IEEE arithmetic does at a zero divisor, at
    infinities and at NaN is written out.  Python integers are [Z]. *)

From Stdlib Require Import String.
From Stdlib Require Import Reals Lra Lia ZArith List Bool Psatz.
From Stdlib Require Import Sorting.Sorted.
From Stdlib Require DecimalString.
Import ListNotations.

Open Scope R_scope.

(* ================================================================== *)
(** ** Python exceptions and results *)

Inductive exn :=
| AttributeError (name : string)
| KeyError (key : string)
| ValueError (msg : string)
| ZeroDivisionError.

Inductive result (A : Type) :=
| Ok (a : A)
| Raise (e : exn).
Arguments Ok {A} a.
Arguments Raise {A} e.

Definition bind {A B} (m : result A) (k : A -> result B) : result B :=
  match m with
  | Ok a => k a
  | Raise e => Raise e
  end.

Notation "x <- m ;; k" := (bind m (fun x => k))
  (at level 61, m at next level, right associativity).

(* ================================================================== *)
(** ** Floats *)

Definition Rltb (a b : R) : bool := if Rlt_dec a b then true else false.
Definition Rleb (a b : R) : bool := if Rle_dec a b then true else false.
Definition Reqb (a b : R) : bool := if Req_dec_T a b then true else false.

Inductive npfloat :=
| Fin (r : R)
| PInf
| NInf
| NaN.

Module NP.

Definition is_finite (a : npfloat) : bool :=
  match a with Fin _ => true | _ => false end.

Definition neg (a : npfloat) : npfloat :=
  match a with
  | Fin r => Fin (- r)
  | PInf => NInf
  | NInf => PInf
  | NaN => NaN
  end.

Definition add (a b : npfloat) : npfloat :=
  match a, b with
  | NaN, _ | _, NaN => NaN
  | Fin x, Fin y => Fin (x + y)
  | PInf, NInf | NInf, PInf => NaN
  | PInf, _ | _, PInf => PInf
  | NInf, _ | _, NInf => NInf
  end.

Definition sub (a b : npfloat) : npfloat := add a (neg b).

(** The sign of an infinity scaled by a finite factor; [inf * 0] is NaN. *)
Definition scale_inf (pos : bool) (r : R) : npfloat :=
  if Rltb 0 r then (if pos then PInf else NInf)
  else if Rltb r 0 then (if pos then NInf else PInf)
  else NaN.

Definition mul (a b : npfloat) : npfloat :=
  match a, b with
  | NaN, _ | _, NaN => NaN
  | Fin x, Fin y => Fin (x * y)
  | PInf, Fin y | Fin y, PInf => scale_inf true y
  | NInf, Fin y | Fin y, NInf => scale_inf false y
  | PInf, PInf | NInf, NInf => PInf
  | PInf, NInf | NInf, PInf => NInf
  end.

(** NumPy division: a zero divisor gives an infinity (or NaN for 0/0) and a
    warning, never an exception. *)
Definition div (a b : npfloat) : npfloat :=
  match a, b with
  | NaN, _ | _, NaN => NaN
  | Fin x, Fin y =>
      if Reqb y 0 then
        (if Rltb 0 x then PInf else if Rltb x 0 then NInf else NaN)
      else Fin (x / y)
  | Fin _, PInf | Fin _, NInf => Fin 0
  | PInf, Fin y => if Rltb y 0 then NInf else PInf
  | NInf, Fin y => if Rltb y 0 then PInf else NInf
  | PInf, PInf | PInf, NInf | NInf, PInf | NInf, NInf => NaN
  end.

Definition sqrt (a : npfloat) : npfloat :=
  match a with
  | Fin r => if Rltb r 0 then NaN else Fin (R_sqrt.sqrt r)
  | PInf => PInf
  | NInf => NaN
  | NaN => NaN
  end.

(** Comparisons: every comparison with NaN is false. *)
Definition ltb (a b : npfloat) : bool :=
  match a, b with
  | NaN, _ | _, NaN => false
  | Fin x, Fin y => Rltb x y
  | NInf, NInf => false
  | NInf, _ => true
  | _, NInf => false
  | PInf, _ => false
  | Fin _, PInf => true
  end.

Definition eqb (a b : npfloat) : bool :=
  match a, b with
  | Fin x, Fin y => Reqb x y
  | PInf, PInf | NInf, NInf => true
  | _, _ => false
  end.

Definition leb (a b : npfloat) : bool := ltb a b || eqb a b.
Definition gtb (a b : npfloat) : bool := ltb b a.
Definition geb (a b : npfloat) : bool := leb b a.

(** Python's builtin [max(a, b)]: keeps [a] unless [b > a]. *)
Definition py_max (a b : npfloat) : npfloat := if gtb b a then b else a.

(** Sum of a finite array. *)
Definition sum (l : list R) : R := fold_right Rplus 0 l.

Definition len (l : list R) : R := INR (length l).

(** [np.mean]: NaN on an empty array. *)
Definition mean (l : list R) : npfloat := div (Fin (sum l)) (Fin (len l)).

(** Mean of a non-empty array as a real (0 on the empty one, never used
    there). *)
Definition rmean (l : list R) : R := sum l / len l.

Definition sqdev (l : list R) : list R :=
  map (fun x => (x - rmean l) * (x - rmean l)) l.

(** [np.var(l, ddof=d)]: the squared deviations from the mean summed and
    divided by [max(len - d, 0)]. *)
Definition var (ddof : nat) (l : list R) : npfloat :=
  match l with
  | [] => NaN
  | _ => div (Fin (sum (sqdev l))) (Fin (INR (length l - ddof)))
  end.

(** [np.std(l, ddof=d)]. *)
Definition std (ddof : nat) (l : list R) : npfloat := sqrt (var ddof l).

End NP.

(* ================================================================== *)
(** ** Python sequences *)

Module Py.

(** Index normalisation of a slice bound: a negative bound counts from the
    end, and the result is clamped to [0, len]. *)
Definition clamp_index (len i : Z) : Z :=
  let j := if (i <? 0)%Z then (i + len)%Z else i in
  Z.max 0 (Z.min len j).

(** [l[start:stop]] with both bounds optional. *)
Definition slice {A} (l : list A) (start stop : option Z) : list A :=
  let len := Z.of_nat (length l) in
  let s := match start with Some i => clamp_index len i | None => 0%Z end in
  let e := match stop with Some i => clamp_index len i | None => len end in
  firstn (Z.to_nat (e - s)) (skipn (Z.to_nat s) l).

Definition len {A} (l : list A) : Z := Z.of_nat (length l).

(** [str] of an integer, as an f-string prints it. *)
Definition str (z : Z) : string :=
  DecimalString.NilZero.string_of_int (Z.to_int z).

End Py.

(* ================================================================== *)
(** ** strategies/bond_arb_strategy.py *)

Module BayesianBondArbStrategy.

(** The instance attributes set by [__init__]. *)
Record t := mk {
  window_size : Z;
  prior_window : Z;
  position : option Z;
  history : list R
}.

Definition __init__ (window_size prior_window : Z) : t :=
  mk window_size prior_window None [].

(** What [update_parameters] returns: the tuple [(None, None, None)] during
    warm-up, a triple of floats afterwards. *)
Inductive estimate :=
| WarmUp
| Estimate (z_score mu_post sigma_post : npfloat).

Definition _get_prior_data (self : t) : list R :=
  let start :=
    Z.max 0 (Py.len (history self) - prior_window self - window_size self) in
  let stop := (Py.len (history self) - window_size self)%Z in
  Py.slice (history self) (Some start) (Some stop).

Definition _get_window_data (self : t) : list R :=
  Py.slice (history self) (Some (- window_size self)%Z) None.

Definition update_parameters (self : t) (new_spread_value : R)
  : t * estimate :=
  let self := mk (window_size self) (prior_window self) (position self)
                 (history self ++ [new_spread_value]) in
  if (Py.len (history self) <? window_size self + 2)%Z then (self, WarmUp)
  else
    let prior_data := _get_prior_data self in
    let mu0 := NP.mean prior_data in
    let tau2 := NP.var 0 prior_data in
    let window_data := _get_window_data self in
    let n := Fin (NP.len window_data) in
    let X_bar := NP.mean window_data in
    let window_var := NP.py_max (NP.var 1 window_data) (Fin (1 / 10 ^ 8)) in
    let sigma_post2 :=
      NP.div (Fin 1) (NP.add (NP.div n window_var) (NP.div (Fin 1) tau2)) in
    let mu_post :=
      NP.mul sigma_post2
        (NP.add (NP.div (NP.mul n X_bar) window_var) (NP.div mu0 tau2)) in
    let sigma_post := NP.sqrt sigma_post2 in
    let z_score := NP.div (NP.sub (Fin new_spread_value) mu_post) sigma_post in
    (self, Estimate z_score mu_post sigma_post).

(** A stream of observations fed to one instance, with the estimates in the
    order they were returned. *)
Fixpoint feed (self : t) (xs : list R) : t * list estimate :=
  match xs with
  | [] => (self, [])
  | x :: xs' =>
      let '(self1, e) := update_parameters self x in
      let '(self2, es) := feed self1 xs' in
      (self2, e :: es)
  end.

End BayesianBondArbStrategy.

(* ================================================================== *)
(** ** utils/indicators.py *)

Module Indicators.

(** Division of two Python floats: a zero divisor raises. *)
Definition py_truediv (a b : R) : result R :=
  if Reqb b 0 then Raise ZeroDivisionError else Ok (a / b).

Definition compute_z_score (value mean std : R) : result R :=
  if Reqb std 0 then Ok 0
  else py_truediv (value - mean) std.

End Indicators.

(* ================================================================== *)
(** ** pandas Series and NumPy array helpers used by the risk module *)

Module Series.

Definition is_nan (a : npfloat) : bool :=
  match a with NaN => true | _ => false end.

Definition dropna (l : list npfloat) : list npfloat :=
  filter (fun a => negb (is_nan a)) l.

Definition fsum (l : list npfloat) : npfloat := fold_right NP.add (Fin 0) l.

(** [Series.mean()]: NaN entries are skipped; NaN when nothing is left. *)
Definition mean (l : list npfloat) : npfloat :=
  let v := dropna l in
  NP.div (fsum v) (Fin (INR (length v))).

(** [Series.std(ddof=d)], which is what [np.std(series)] calls with
    [d = 0]. *)
Definition std (ddof : nat) (l : list npfloat) : npfloat :=
  let v := dropna l in
  let m := mean l in
  let sq := map (fun x => NP.mul (NP.sub x m) (NP.sub x m)) v in
  match v with
  | [] => NaN
  | _ => NP.sqrt (NP.div (fsum sq) (Fin (INR (length v - ddof))))
  end.

(** [Series.min()]: the least entry that is not NaN; NaN when there is
    none. *)
Definition min (l : list npfloat) : npfloat :=
  match dropna l with
  | [] => NaN
  | a :: v => fold_left (fun m x => if NP.ltb x m then x else m) v a
  end.

(** Mean of a non-empty boolean Series or array: the fraction of
    [True]. *)
Definition bool_mean (l : list bool) : R :=
  INR (length (filter (fun b => b) l)) / INR (length l).

Fixpoint cumsum_from (acc : R) (l : list R) : list R :=
  match l with
  | [] => []
  | x :: l' => (acc + x) :: cumsum_from (acc + x) l'
  end.

Definition cumsum (l : list R) : list R := cumsum_from 0 l.

(** [np.maximum.accumulate]. *)
Fixpoint maximum_accumulate_from (m : R) (l : list R) : list R :=
  match l with
  | [] => []
  | x :: l' => Rmax m x :: maximum_accumulate_from (Rmax m x) l'
  end.

Definition maximum_accumulate (l : list R) : list R :=
  match l with
  | [] => []
  | x :: l' => x :: maximum_accumulate_from x l'
  end.

(** [np.diff] of an integer array. *)
Fixpoint diff (l : list Z) : list Z :=
  match l with
  | a :: ((b :: _) as l') => (b - a)%Z :: diff l'
  | _ => []
  end.

(** The entries of an array when all of them are finite. *)
Fixpoint finite_values (l : list npfloat) : option (list R) :=
  match l with
  | [] => Some []
  | Fin r :: l' =>
      match finite_values l' with
      | Some rs => Some (r :: rs)
      | None => None
      end
  | _ :: _ => None
  end.

Fixpoint insert (x : R) (l : list R) : list R :=
  match l with
  | [] => [x]
  | y :: l' => if Rleb x y then x :: l else y :: insert x l'
  end.

(** [np.sort] of a finite array. *)
Definition sort (l : list R) : list R := fold_right insert [] l.

(** NumPy's [_lerp(a, b, t)]. *)
Definition lerp (a b t : R) : R :=
  let diff_b_a := b - a in
  if Rleb (1 / 2) t then b - diff_b_a * (1 - t)
  else a + diff_b_a * t.

(** The quantile of a non-empty finite array by linear interpolation
    between order statistics ([method='linear'], NumPy's default): the
    virtual index is [(n - 1) * quantile], its floor and the next index
    select the two order statistics, its fractional part weighs them. *)
Definition quantile_linear (a : list R) (quantile : R) : R :=
  let arr := sort a in
  let n := length a in
  let virtual_index := INR (n - 1) * quantile in
  let fl := Int_part virtual_index in
  let gamma := virtual_index - IZR fl in
  let '(previous_index, next_index) :=
    if Rleb (INR (n - 1)) virtual_index then ((n - 1)%nat, (n - 1)%nat)
    else if Rltb virtual_index 0 then (0%nat, 0%nat)
    else (Z.to_nat fl, (Z.to_nat fl + 1)%nat) in
  lerp (nth previous_index arr 0) (nth next_index arr 0) gamma.

(** [np.percentile(a, q)].  A percentage outside [0, 100] raises; an empty
    array or one with a NaN gives NaN.  What NumPy returns on an array with
    infinite entries depends on its version and is not modelled: NaN stands
    for it. *)
Definition percentile (a : list npfloat) (q : R) : result npfloat :=
  let quantile := q / 100 in
  if Rleb 0 quantile && Rleb quantile 1 then
    match finite_values a with
    | Some [] => Ok NaN
    | Some rs => Ok (Fin (quantile_linear rs quantile))
    | None => Ok NaN
    end
  else Raise (ValueError "Percentiles must be in the range [0, 100]").

End Series.

(* ================================================================== *)
(** ** risk/risk_metrics.py *)

Module StrategyRiskAnalyzer.

(** A trade dictionary as the backtest emits it; the analyzer reads only
    its ['profit'] entry. *)
Inductive side := long | short.

Record trade := mk_trade {
  type : side;
  profit : R
}.

(** The instance.  [cum_profit] is the DataFrame column of that name;
    [equity_curve] and [returns] are attributes that [_process_trades] sets
    only on a non-empty DataFrame: [None] is an attribute that was never
    set. *)
Record t := mk {
  trades : list trade;
  initial_capital : R;
  df : list trade;
  cum_profit : option (list R);
  equity_curve : option (list R);
  returns : option (list npfloat)
}.

(** Reading an instance attribute. *)
Definition getattr {A} (name : string) (v : option A) : result A :=
  match v with
  | Some a => Ok a
  | None => Raise (AttributeError name)
  end.

(** Calling [self.name()] for a name that neither the class nor the
    instance defines. *)
Definition undefined_method {A} (name : string) : result A :=
  Raise (AttributeError name).

(** [self.df['profit']]: the column exists as soon as there is a row. *)
Definition df_profit (self : t) : result (list R) :=
  match df self with
  | [] => Raise (KeyError "profit")
  | rows => Ok (map profit rows)
  end.

Definition _process_trades (self : t) : t :=
  let df := trades self in
  match df with
  | [] =>
      mk (trades self) (initial_capital self) df
         (cum_profit self) (equity_curve self) (returns self)
  | _ =>
      let cum := Series.cumsum (map profit df) in
      mk (trades self) (initial_capital self) df
         (Some cum)
         (Some (map (fun c => initial_capital self + c) cum))
         (Some (map (fun p => NP.div (Fin p) (Fin (initial_capital self)))
                    (map profit df)))
  end.

Definition __init__ (trades : list trade) (initial_capital : R) : t :=
  _process_trades (mk trades initial_capital [] None None None).

(** The Cornish-Fisher expansion of a normal quantile [z]. *)
Definition cornish_fisher_z (z skew kurt : npfloat) : npfloat :=
  let z2 := NP.mul z z in
  let z3 := NP.mul z2 z in
  NP.sub
    (NP.add
       (NP.add z
          (NP.div (NP.mul (NP.sub z2 (Fin 1)) skew) (Fin 6)))
       (NP.div (NP.mul (NP.sub z3 (NP.mul (Fin 3) z)) kurt) (Fin 24)))
    (NP.div
       (NP.mul (NP.sub (NP.mul (Fin 2) z3) (NP.mul (Fin 5) z))
               (NP.mul skew skew))
       (Fin 36)).

Section Methods.

(** [scipy.stats.norm.ppf], the standard normal quantile function. *)
Variable norm_ppf : R -> npfloat.

Definition _historical_var (self : t) (confidence_level : R)
  : result npfloat :=
  rets <- getattr "returns" (returns self) ;;
  Series.percentile rets (100 * (1 - confidence_level)).

Definition _parametric_var (self : t) (confidence_level : R)
  : result npfloat :=
  rets <- getattr "returns" (returns self) ;;
  let mu := Series.mean rets in
  let sigma := Series.std 0 rets in
  Ok (NP.add mu (NP.mul sigma (norm_ppf (1 - confidence_level)))).

Definition _cornish_fisher_var (self : t) (confidence_level : R)
  : result npfloat :=
  skew <- undefined_method "_compute_skew" ;;
  kurt <- undefined_method "_compute_kurtosis" ;;
  let z := norm_ppf (1 - confidence_level) in
  let z_cf := cornish_fisher_z z skew kurt in
  rets <- getattr "returns" (returns self) ;;
  Ok (NP.add (Series.mean rets) (NP.mul (Series.std 0 rets) z_cf)).

Definition compute_strategy_var (self : t) (method : string)
    (confidence_level : R) : result npfloat :=
  if String.eqb method "historical" then
    _historical_var self confidence_level
  else if String.eqb method "gaussian" then
    _parametric_var self confidence_level
  else if String.eqb method "cornish-fisher" then
    _cornish_fisher_var self confidence_level
  else Raise (ValueError "Invalid VaR method").

Definition compute_strategy_cvar (self : t) (confidence_level : R)
  : result npfloat :=
  var <- compute_strategy_var self "historical" confidence_level ;;
  rets <- getattr "returns" (returns self) ;;
  Ok (Series.mean (filter (fun r => NP.leb r var) rets)).

Definition _compute_drawdown_duration (drawdowns : list npfloat) : R :=
  let in_drawdown := map (fun d => NP.ltb d (Fin 0)) drawdowns in
  if (0 <? length drawdowns)%nat then Series.bool_mean in_drawdown else 0.

Definition _compute_recovery_time (drawdowns : list npfloat) : R :=
  let as_int :=
    map (fun d => if NP.ltb d (Fin 0) then 1%Z else 0%Z) drawdowns in
  let recoveries := map (fun d => Z.eqb d 1) (Series.diff as_int) in
  if (0 <? length recoveries)%nat then Series.bool_mean recoveries else 0.

(** The drawdown Series: [(equity_curve - running_max) / running_max]. *)
Definition drawdown_series (equity_curve : list R) : list npfloat :=
  let running_max := Series.maximum_accumulate equity_curve in
  map (fun '(e, m) => NP.div (Fin (e - m)) (Fin m))
      (combine equity_curve running_max).

Record drawdown_stats := mk_drawdown_stats {
  dd_max_drawdown : npfloat;
  dd_drawdown_duration : R;
  dd_recovery_time : R
}.

Definition compute_trade_drawdowns (self : t) : result drawdown_stats :=
  equity <- getattr "equity_curve" (equity_curve self) ;;
  let drawdowns := drawdown_series equity in
  Ok (mk_drawdown_stats
        (Series.min drawdowns)
        (_compute_drawdown_duration drawdowns)
        (_compute_recovery_time drawdowns)).

Record risk_report := mk_risk_report {
  var_95_historical : npfloat;
  var_95_cornishfisher : npfloat;
  cvar_95 : npfloat;
  max_drawdown : npfloat;
  profit_factor : npfloat;
  win_rate : R
}.

(** The dictionary display evaluates its values in the order written.
    (In [profit_factor] the sign of a zero divisor is not tracked.) *)
Definition generate_risk_report (self : t) : result risk_report :=
  v_hist <- compute_strategy_var self "historical" (95 / 100) ;;
  v_cf <- compute_strategy_var self "cornish-fisher" (95 / 100) ;;
  cvar <- compute_strategy_cvar self (95 / 100) ;;
  dd <- compute_trade_drawdowns self ;;
  p1 <- df_profit self ;;
  p2 <- df_profit self ;;
  let pf :=
    NP.div (Fin (NP.sum (map (fun p => Rmax p 0) p1)))
           (NP.neg (Fin (NP.sum (map (fun p => Rmin p 0) p2)))) in
  p3 <- df_profit self ;;
  Ok (mk_risk_report v_hist v_cf cvar (dd_max_drawdown dd) pf
        (Series.bool_mean (map (fun p => Rltb 0 p) p3))).

End Methods.

End StrategyRiskAnalyzer.

(* ================================================================== *)
(** ** research/backtesting.py *)

Module BondArbBacktest.

(** The columns of the DataFrame that [backtest] reads. *)
Record row := mk_row {
  spread : npfloat;
  rolling_mean : npfloat;
  rolling_std : npfloat
}.

(** The last [window] entries up to and including index [i]. *)
Definition rolling_window (window : nat) (l : list R) (i : nat) : list R :=
  firstn (S i - (S i - window)) (skipn (S i - window) l).

(** [load_data] on rows already ordered by date: the spread of the two
    prices, and its rolling mean and rolling sample standard deviation
    (pandas: [ddof=1], NaN on a single observation) with
    [min_periods=1].  pandas rejects a window below [min_periods], naming
    both in the message. *)
Definition load_data (window : Z) (prices : list (R * R))
  : result (list row) :=
  if (window <? 0)%Z then
    Raise (ValueError (String.append "min_periods 1 must be <= window "
                                     (Py.str window)))
  else if (window =? 0)%Z then
    Raise (ValueError "min_periods 1 must be <= window 0")
  else
    let spreads := map (fun '(bond1_price, bond2_price) =>
                          bond1_price - bond2_price) prices in
    Ok (map (fun i =>
               let w := rolling_window (Z.to_nat window) spreads i in
               mk_row (Fin (nth i spreads 0)) (NP.mean w) (NP.std 1 w))
            (seq 0 (length spreads))).

(** One iteration of the loop body of [backtest] for a row of index > 0. *)
Definition step (threshold : R) (pos : Z) (r : row) : Z :=
  let mean := rolling_mean r in
  let std := rolling_std r in
  let spread := spread r in
  let upper := NP.add mean (NP.mul (Fin threshold) std) in
  let lower := NP.sub mean (NP.mul (Fin threshold) std) in
  if (pos =? 0)%Z then
    if NP.gtb spread upper then (-1)%Z
    else if NP.ltb spread lower then 1%Z
    else pos
  else
    if ((pos =? 1)%Z && NP.geb spread mean)
       || ((pos =? -1)%Z && NP.leb spread mean)
    then 0%Z
    else pos.

(** The loop of [backtest] from row index [i] on: the positions appended. *)
Fixpoint loop (threshold : R) (i : nat) (pos : Z) (rows : list row)
  : list Z :=
  match rows with
  | [] => []
  | r :: rest =>
      if (i =? 0)%nat then 0%Z :: loop threshold (S i) pos rest
      else
        let pos' := step threshold pos r in
        pos' :: loop threshold (S i) pos' rest
  end.

Definition positions (threshold : R) (rows : list row) : list Z :=
  loop threshold 0 0%Z rows.

Definition fillna0 (l : list npfloat) : list npfloat :=
  map (fun a => if Series.is_nan a then Fin 0 else a) l.

(** [Series.shift(1)]. *)
Definition shift1 (l : list npfloat) : list npfloat :=
  firstn (length l) (NaN :: l).

(** [Series.diff()]. *)
Definition sdiff (l : list npfloat) : list npfloat :=
  match l with
  | [] => []
  | _ :: l' => NaN :: map (fun '(b, a) => NP.sub b a) (combine l' l)
  end.

(** [Series.cumsum()]: a NaN entry stays NaN and is left out of the running
    sum. *)
Fixpoint fcumsum_from (acc : npfloat) (l : list npfloat) : list npfloat :=
  match l with
  | [] => []
  | x :: l' =>
      if Series.is_nan x then NaN :: fcumsum_from acc l'
      else NP.add acc x :: fcumsum_from (NP.add acc x) l'
  end.

Record frame := mk_frame {
  f_position : list Z;
  f_spread_diff : list npfloat;
  f_pnl : list npfloat;
  f_cum_pnl : list npfloat
}.

Definition backtest (threshold : R) (rows : list row) : frame :=
  let positions := positions threshold rows in
  let spread_diff := fillna0 (sdiff (map spread rows)) in
  let pnl :=
    map (fun '(p, d) => NP.mul p d)
        (combine (fillna0 (shift1 (map (fun p => Fin (IZR p)) positions)))
                 spread_diff) in
  mk_frame positions spread_diff pnl (fcumsum_from (Fin 0) pnl).

End BondArbBacktest.

(* ================================================================== *)
(** ** The contracts of the specification, for comparison with the code *)

(** The estimator contract, written from its description: the prior
    segment is [history[max(0, n-P-W) : n-W]], the window segment is the
    last [W] observations, and the posterior uses [n_w = W]. *)
Module BayesianEstimator.

(** The entries of [l] at the indices [a <= i < b]. *)
Definition segment (l : list R) (a b : nat) : list R :=
  map (fun i => nth i l 0) (seq a (b - a)).

Definition epsilon : R := 1 / 10 ^ 8.

Definition prior_segment (W P : Z) (h : list R) : list R :=
  let n := Z.of_nat (length h) in
  segment h (Z.to_nat (Z.max 0 (n - P - W))) (Z.to_nat (n - W)).

Definition window_segment (W : Z) (h : list R) : list R :=
  segment h (length h - Z.to_nat W) (length h).



End BayesianEstimator.

(** The computation of [update_parameters] with its slices written as
    segments and the window length as [W]; the floor is still Python's
    [max(var, 1e-8)].  A normal form of the code used in the proofs, not a
    contract. *)
Definition update_by_segments (W P : Z) (h : list R) (x : R)
  : BayesianBondArbStrategy.estimate :=
  let h' := h ++ [x] in
  if (Z.of_nat (length h') <? W + 2)%Z then BayesianBondArbStrategy.WarmUp
  else
    let mu0 := NP.mean (BayesianEstimator.prior_segment W P h') in
    let tau2 := NP.var 0 (BayesianEstimator.prior_segment W P h') in
    let n_w := Fin (IZR W) in
    let x_bar := NP.mean (BayesianEstimator.window_segment W h') in
    let window_var :=
      NP.py_max (NP.var 1 (BayesianEstimator.window_segment W h'))
                (Fin BayesianEstimator.epsilon) in
    let sigma_post2 :=
      NP.div (Fin 1)
             (NP.add (NP.div n_w window_var) (NP.div (Fin 1) tau2)) in
    let mu_post :=
      NP.mul sigma_post2
             (NP.add (NP.div (NP.mul n_w x_bar) window_var)
                     (NP.div mu0 tau2)) in
    let sigma_post := NP.sqrt sigma_post2 in
    let z := NP.div (NP.sub (Fin x) mu_post) sigma_post in
    BayesianBondArbStrategy.Estimate z mu_post sigma_post.

(** The position state machine of the specification, driven by pairs
    [(z, price)]. *)
Module PositionStateMachine.

Inductive position :=
| FLAT
| LONG (entry_index : nat) (entry_price : npfloat)
| SHORT (entry_index : nat) (entry_price : npfloat).

Inductive trade_type := TLONG | TSHORT.

Record Trade := mk_Trade {
  type : trade_type;
  entry_index : nat;
  exit_index : nat;
  entry_price : npfloat;
  exit_price : npfloat;
  profit : npfloat
}.

Record config := mk_config {
  entry_threshold : R;
  long_exit_threshold : R;
  short_exit_threshold : R;
  transaction_cost : R
}.

Definition step (c : config) (st : position) (i : nat) (z price : npfloat)
  : position * option Trade :=
  match st with
  | FLAT =>
      if NP.geb z (Fin (entry_threshold c)) then (SHORT i price, None)
      else if NP.leb z (Fin (- entry_threshold c)) then (LONG i price, None)
      else (FLAT, None)
  | LONG i0 p0 =>
      if NP.geb z (Fin (long_exit_threshold c)) then
        (FLAT,
         Some (mk_Trade TLONG i0 i p0 price
                 (NP.sub (NP.sub price p0)
                         (Fin (2 * transaction_cost c)))))
      else (st, None)
  | SHORT i0 p0 =>
      if NP.leb z (Fin (short_exit_threshold c)) then
        (FLAT,
         Some (mk_Trade TSHORT i0 i p0 price
                 (NP.sub (NP.sub p0 price)
                         (Fin (2 * transaction_cost c)))))
      else (st, None)
  end.

(** The positions after each input, from state [st] at index [i]. *)
Fixpoint run (c : config) (st : position) (i : nat)
    (inputs : list (npfloat * npfloat)) : list position :=
  match inputs with
  | [] => []
  | (z, price) :: rest =>
      let st' := fst (step c st i z price) in
      st' :: run c st' (S i) rest
  end.

(** The integer the rolling-window backtest uses for a position. *)
Definition code (st : position) : Z :=
  match st with
  | FLAT => 0
  | LONG _ _ => 1
  | SHORT _ _ => -1
  end.

(** The machine that the rolling-window backtest runs.  It is driven by
    the row itself rather than by a z-score: a flat position opens SHORT
    when the spread is strictly above [mean + threshold * std], LONG when
    it is strictly below [mean - threshold * std]; a LONG position closes
    when the spread is at or above the rolling mean, a SHORT one when it
    is at or below it.  No trade is recorded and no cost is charged. *)
Definition step_bands (threshold : R) (st : position) (i : nat)
    (r : BondArbBacktest.row) : position :=
  let mean := BondArbBacktest.rolling_mean r in
  let std := BondArbBacktest.rolling_std r in
  let spread := BondArbBacktest.spread r in
  match st with
  | FLAT =>
      if NP.gtb spread (NP.add mean (NP.mul (Fin threshold) std))
      then SHORT i spread
      else if NP.ltb spread (NP.sub mean (NP.mul (Fin threshold) std))
      then LONG i spread
      else FLAT
  | LONG _ _ => if NP.geb spread mean then FLAT else st
  | SHORT _ _ => if NP.leb spread mean then FLAT else st
  end.

Fixpoint run_bands (threshold : R) (st : position) (i : nat)
    (rows : list BondArbBacktest.row) : list position :=
  match rows with
  | [] => []
  | r :: rest =>
      let st' := step_bands threshold st i r in
      st' :: run_bands threshold st' (S i) rest
  end.

(** The z-score source of the rolling-window variant. *)
Definition rolling_z (r : BondArbBacktest.row) : npfloat :=
  NP.div (NP.sub (BondArbBacktest.spread r) (BondArbBacktest.rolling_mean r))
         (BondArbBacktest.rolling_std r).

Definition rolling_inputs (rows : list BondArbBacktest.row)
  : list (npfloat * npfloat) :=
  map (fun r => (rolling_z r, BondArbBacktest.spread r)) rows.

End PositionStateMachine.

(** The recovery rate as the specification words it: the fraction of index
    transitions at which the drawdown goes from negative to zero. *)
Module RecoverySpec.

Fixpoint recoveries (dd : list npfloat) : list bool :=
  match dd with
  | a :: ((b :: _) as rest) =>
      (NP.ltb a (Fin 0) && NP.eqb b (Fin 0)) :: recoveries rest
  | _ => []
  end.

Definition recovery_rate (dd : list npfloat) : R :=
  if (0 <? length (recoveries dd))%nat then Series.bool_mean (recoveries dd)
  else 0.

End RecoverySpec.

(** The transitions that the code's [np.diff(...) == 1] test selects: from
    a drawdown that is not negative to one that is. *)
Module DrawdownOnset.

Fixpoint onsets (dd : list npfloat) : list bool :=
  match dd with
  | a :: ((b :: _) as rest) =>
      (negb (NP.ltb a (Fin 0)) && NP.ltb b (Fin 0)) :: onsets rest
  | _ => []
  end.

End DrawdownOnset.




(** The spread of a row as a real number. *)
Definition finite_spread (r : BondArbBacktest.row) : R :=
  match BondArbBacktest.spread r with
  | Fin s => s
  | _ => 0
  end.

(** A profit-and-loss column without any cost term: the position held
    over the step times the change of the spread. *)
Fixpoint pnl_no_cost (prev_pos : Z) (prev_spread : R)
    (ps : list Z) (ss : list R) : list npfloat :=
  match ps, ss with
  | p :: ps', s :: ss' =>
      Fin (IZR prev_pos * (s - prev_spread)) :: pnl_no_cost p s ps' ss'
  | _, _ => []
  end.

(** Whether an estimate is the warm-up sentinel. *)
Definition is_warmup (e : BayesianBondArbStrategy.estimate) : bool :=
  match e with
  | BayesianBondArbStrategy.WarmUp => true
  | BayesianBondArbStrategy.Estimate _ _ _ => false
  end.

(** Positions of the rolling-window backtest: the three values it uses, and
    sequences in which a long position is never followed at once by a short
    one, nor a short one by a long one. *)
Definition valid_position (p : Z) : Prop := (p = 0 \/ p = 1 \/ p = -1)%Z.

Fixpoint no_reversal (prev : Z) (ps : list Z) : Prop :=
  match ps with
  | [] => True
  | p :: ps' => (prev * p <> -1)%Z /\ no_reversal p ps'
  end.

(* ================================================================== *)
(** ** utils/indicators.py: the other indicators *)

Module BayesianZScore.

(** [compute_z_score] when it is handed NumPy floats, as
    [compute_bayesian_z_score] does: the comparison and the division are
    NumPy's, so nothing raises. *)
Definition compute_z_score_np (value : R) (mean std : npfloat) : npfloat :=
  if NP.eqb std (Fin 0) then Fin 0
  else NP.div (NP.sub (Fin value) mean) std.

(** [compute_bayesian_z_score] on a finite window and Python floats for
    the other arguments (the types of the defaults).  [n / observation_variance],
    [1.0 / prior_variance], [1.0 / (...)] and [prior_mean / prior_variance]
    are divisions of Python numbers and raise on a zero divisor; the
    operations on [sample_mean] and on the posterior are NumPy's.  The
    result is the tuple [(posterior_mean, posterior_std, z_score)]. *)
Definition compute_bayesian_z_score
    (window_data : list R)
    (current_value prior_mean prior_variance observation_variance : R)
  : result (npfloat * npfloat * npfloat) :=
  let n := length window_data in
  if (n =? 0)%nat then
    Raise (ValueError "window_data must contain at least one element")
  else
    let sample_mean := NP.mean window_data in
    a <- Indicators.py_truediv (INR n) observation_variance ;;
    b <- Indicators.py_truediv 1 prior_variance ;;
    posterior_variance <- Indicators.py_truediv 1 (a + b) ;;
    let t1 := NP.div (NP.mul (Fin (INR n)) sample_mean)
                     (Fin observation_variance) in
    t2 <- Indicators.py_truediv prior_mean prior_variance ;;
    let posterior_mean :=
      NP.mul (Fin posterior_variance) (NP.add t1 (Fin t2)) in
    let posterior_std := NP.sqrt (Fin posterior_variance) in
    let z_score :=
      compute_z_score_np current_value posterior_mean posterior_std in
    Ok (posterior_mean, posterior_std, z_score).

Definition compute_yield_spread (yield1 yield2 : R) : R := yield1 - yield2.

End BayesianZScore.

Module MovingAverages.

(** [pd.Series(series).rolling(window=window)]: with [min_periods] left to
    its default, an entry is NaN until [window] observations are there.
    pandas rejects a negative window. *)
Definition rolling (stat : list R -> npfloat) (series : list R) (window : Z)
  : result (list npfloat) :=
  if (window <? 0)%Z then
    Raise (ValueError "window must be an integer 0 or greater")
  else
    Ok (map (fun i =>
               if (Z.of_nat (S i) <? window)%Z then NaN
               else stat (BondArbBacktest.rolling_window
                            (Z.to_nat window) series i))
            (seq 0 (length series))).

Definition moving_average (series : list R) (window : Z)
  : result (list npfloat) :=
  rolling NP.mean series window.

Definition rolling_std (series : list R) (window : Z)
  : result (list npfloat) :=
  rolling (NP.std 1) series window.

(** The smoothing factor that pandas derives from a span:
    [com = (span - 1) / 2], [alpha = 1 / (1 + com)]. *)
Definition alpha_of_span (span : R) : R := 1 / (1 + (span - 1) / 2).

(** The recursion of [ewm(span=window, adjust=False).mean()] on a series
    without NaN.  The old weight is [1 - alpha], the new one [alpha]; an
    observation equal to the running average leaves it as it is, any other
    one gives the weighted sum divided by the sum of the two weights. *)
Fixpoint ewm_from (alpha weighted : R) (l : list R) : list R :=
  match l with
  | [] => []
  | cur :: l' =>
      let old_wt := 1 * (1 - alpha) in
      let new_wt := alpha in
      let weighted' :=
        if Reqb weighted cur then weighted
        else (old_wt * weighted + new_wt * cur) / (old_wt + new_wt) in
      weighted' :: ewm_from alpha weighted' l'
  end.

(** [exponential_moving_average] on a finite series; pandas rejects a span
    below 1. *)
Definition exponential_moving_average (series : list R) (window : R)
  : result (list R) :=
  if Rltb window 1 then Raise (ValueError "span must satisfy: span >= 1")
  else
    match series with
    | [] => Ok []
    | x :: l => Ok (x :: ewm_from (alpha_of_span window) x l)
    end.

End MovingAverages.

(* ================================================================== *)
(** ** data/data_pipeline.py: the deterministic parts of OUJSimulator *)

Module OUJSimulator.

Record regime := mk_regime {
  start : Z;
  stop : Z;
  sigma_multiplier : R
}.

(** The entries of [config['process']] that validation and the volatility
    schedule read. *)
Record process_config := mk_process {
  T : Z;
  theta : R;
  base_sigma : R;
  jump_intensity : R;
  regimes : list regime
}.

(** The defaults of [_load_config]. *)
Definition default_process : process_config :=
  mk_process 2000 (1 / 10) (1 / 10) (2 / 100) [mk_regime 500 1500 2].

(** [_validate_config] on the three entries of [config['process']] that
    it reads.  They come from the defaults or from a YAML file, so they
    are floats that may be [.nan] or [.inf]; every comparison with NaN is
    false. *)
Definition _validate_config (theta base_sigma jump_intensity : npfloat)
  : result unit :=
  if NP.leb theta (Fin 0) then
    Raise (ValueError "Mean reversion speed (theta) must be positive")
  else if NP.leb base_sigma (Fin 0) then
    Raise (ValueError "Volatility (sigma) must be positive")
  else if negb (NP.leb (Fin 0) jump_intensity
                && NP.leb jump_intensity (Fin 1)) then
    Raise (ValueError "Jump intensity must be between 0 and 1")
  else Ok tt.

(** [sigma[start:end] *= m] on an array: the entries whose index lies in
    the slice are multiplied in place. *)
Definition scale_slice (sigma : list R) (r : regime) : list R :=
  let len := Z.of_nat (length sigma) in
  let s := Py.clamp_index len (start r) in
  let e := Py.clamp_index len (stop r) in
  map (fun '(i, x) =>
         if ((s <=? Z.of_nat i) && (Z.of_nat i <? e))%Z
         then x * sigma_multiplier r else x)
      (combine (seq 0 (length sigma)) sigma).

(** Whether index [i] of an array of length [len] lies in the slice of a
    regime. *)
Definition in_regime (len : nat) (r : regime) (i : nat) : bool :=
  ((Py.clamp_index (Z.of_nat len) (start r) <=? Z.of_nat i)
   && (Z.of_nat i <? Py.clamp_index (Z.of_nat len) (stop r)))%Z.

(** The volatility schedule that [simulate] builds before any random
    draw: [np.full(T, base_sigma)], then every regime applied in order.
    [None] stands for the exception that [simulate] raises before it gets
    there: [np.zeros(T)] rejects a negative [T], and [spread[0] = ...]
    fails on an empty array. *)
Definition regime_volatility (params : process_config)
  : option (list R) :=
  if (T params <=? 0)%Z then None
  else Some (fold_left scale_slice (regimes params)
                       (repeat (base_sigma params) (Z.to_nat (T params)))).

End OUJSimulator.

(* ================================================================== *)
(** ** research/backtesting.py: performance *)

Module Performance.

Definition TRADING_DAYS : R := 252.

(** [Series.cummax()]: a NaN entry stays NaN and is left out of the
    running maximum. *)
Fixpoint fcummax_from (acc : option npfloat) (l : list npfloat)
  : list npfloat :=
  match l with
  | [] => []
  | x :: l' =>
      if Series.is_nan x then NaN :: fcummax_from acc l'
      else
        let m := match acc with
                 | None => x
                 | Some a => if NP.ltb a x then x else a
                 end in
        m :: fcummax_from (Some m) l'
  end.

(** [Series.max()]: the greatest entry that is not NaN; NaN when there is
    none. *)
Definition smax (l : list npfloat) : npfloat :=
  match Series.dropna l with
  | [] => NaN
  | a :: v => fold_left (fun m x => if NP.ltb m x then x else m) v a
  end.

Record metrics := mk_metrics {
  total_pnl : npfloat;
  annualized_return : npfloat;
  annualized_volatility : npfloat;
  sharpe_ratio : npfloat;
  maximum_drawdown : npfloat
}.

(** [performance] on the frame that [backtest] left in [self.df].  [None]
    stands for the [IndexError] of [iloc[-1]] on an empty column.  The
    test [if ann_vol] is false for 0 only: NaN is true. *)
Definition performance (df : BondArbBacktest.frame) : option metrics :=
  match BondArbBacktest.f_cum_pnl df with
  | [] => None
  | cum_pnl =>
      let total := last cum_pnl NaN in
      let daily := BondArbBacktest.f_pnl df in
      let ann_return := NP.mul (Series.mean daily) (Fin TRADING_DAYS) in
      let ann_vol :=
        NP.mul (Series.std 1 daily) (NP.sqrt (Fin TRADING_DAYS)) in
      let sharpe :=
        if NP.eqb ann_vol (Fin 0) then NaN else NP.div ann_return ann_vol in
      let max_dd :=
        smax (map (fun '(m, c) => NP.sub m c)
                  (combine (fcummax_from None cum_pnl) cum_pnl)) in
      Some (mk_metrics total ann_return ann_vol sharpe max_dd)
  end.

End Performance.

Definition finite_nonnegative (d : npfloat) : Prop :=
  exists v, d = Fin v /\ 0 <= v.

(* ================================================================== *)
(** * Properties *)

(** ** Deciding comparisons of reals *)

Lemma Rltb_true a b : a < b -> Rltb a b = true.
Proof. intros H. unfold Rltb. destruct (Rlt_dec a b); [reflexivity | lra]. Qed.

Lemma Rltb_false a b : b <= a -> Rltb a b = false.
Proof. intros H. unfold Rltb. destruct (Rlt_dec a b); [lra | reflexivity]. Qed.

Lemma Rleb_true a b : a <= b -> Rleb a b = true.
Proof. intros H. unfold Rleb. destruct (Rle_dec a b); [reflexivity | lra]. Qed.

Lemma Rleb_false a b : b < a -> Rleb a b = false.
Proof. intros H. unfold Rleb. destruct (Rle_dec a b); [lra | reflexivity]. Qed.

Lemma Reqb_true a b : a = b -> Reqb a b = true.
Proof.
  intros H. unfold Reqb. destruct (Req_dec_T a b); [reflexivity | lra].
Qed.

Lemma Reqb_false a b : a <> b -> Reqb a b = false.
Proof.
  intros H. unfold Reqb. destruct (Req_dec_T a b); [contradiction | reflexivity].
Qed.

Lemma np_div_fin (x y : R) :
  y <> 0 -> NP.div (Fin x) (Fin y) = Fin (x / y).
Proof. intros Hy. unfold NP.div. now rewrite Reqb_false. Qed.

(** Settles every comparison of reals in the goal whose outcome linear
    arithmetic decides. *)
Ltac rdec :=
  unfold Rltb, Rleb, Reqb in *;
  repeat match goal with
         | |- context [Rlt_dec ?a ?b] => destruct (Rlt_dec a b); try lra
         | |- context [Rle_dec ?a ?b] => destruct (Rle_dec a b); try lra
         | |- context [Req_dec_T ?a ?b] => destruct (Req_dec_T a b); try lra
         end.

(** ** compute_z_score *)

(** C10. [compute_z_score] never raises on finite inputs: a zero standard
    deviation gives 0.0, any other gives [(value - mean) / std]. *)
Theorem compute_z_score_total (value mean std : R) :
  Indicators.compute_z_score value mean 0 = Ok 0 /\
  (std <> 0 ->
   Indicators.compute_z_score value mean std = Ok ((value - mean) / std)) /\
  exists z, Indicators.compute_z_score value mean std = Ok z.
Proof.
  unfold Indicators.compute_z_score, Indicators.py_truediv.
  split; [| split].
  - now rewrite Reqb_true.
  - intros Hstd. now rewrite !Reqb_false.
  - destruct (Req_dec_T std 0) as [-> | Hstd].
    + exists 0. now rewrite Reqb_true.
    + exists ((value - mean) / std). now rewrite !Reqb_false.
Qed.

Lemma compute_z_score_total_witness :
  2 <> 0 /\ Indicators.compute_z_score 3 1 2 = Ok ((3 - 1) / 2).
Proof.
  split; [lra |].
  apply (proj1 (proj2 (compute_z_score_total 3 1 2))). lra.
Defined.

(** ** The estimator's history *)

Section History.

Import BayesianBondArbStrategy.

Lemma update_parameters_history (self : t) (x : R) :
  history (fst (update_parameters self x)) = history self ++ [x].
Proof.
  unfold update_parameters. cbn.
  destruct (_ <? _)%Z; reflexivity.
Qed.

Lemma update_parameters_config (self : t) (x : R) :
  window_size (fst (update_parameters self x)) = window_size self /\
  prior_window (fst (update_parameters self x)) = prior_window self.
Proof.
  unfold update_parameters. cbn.
  destruct (_ <? _)%Z; split; reflexivity.
Qed.

Lemma feed_history (xs : list R) : forall self : t,
  history (fst (feed self xs)) = history self ++ xs.
Proof.
  induction xs as [| x xs IH]; intros self; cbn [feed].
  - cbn. now rewrite app_nil_r.
  - pose proof (update_parameters_history self x) as Hx.
    destruct (update_parameters self x) as [self1 e]. cbn in Hx.
    specialize (IH self1).
    destruct (feed self1 xs) as [self2 es]. cbn in *.
    rewrite IH, Hx, <- app_assoc. reflexivity.
Qed.

(** C9, as the code has it.  After any stream of updates on a fresh
    instance the history is the whole stream: it grows by one entry per
    call and nothing is ever dropped. *)
Theorem history_is_whole_stream (W P : Z) (xs : list R) :
  history (fst (feed (__init__ W P) xs)) = xs /\
  length (history (fst (feed (__init__ W P) xs))) = length xs.
Proof.
  rewrite feed_history. cbn. split; reflexivity.
Qed.

(** C9 as stated fails: no bound in [window_size] and [prior_window] caps
    the history length. *)
Lemma history_unbounded :
  ~ exists B : Z -> Z -> nat,
      forall (W P : Z) (xs : list R),
        (0 < W)%Z -> (0 < P)%Z ->
        (length (history (fst (feed (__init__ W P) xs))) <= B W P)%nat.
Proof.
  intros [B HB].
  specialize (HB 40%Z 120%Z (repeat 0 (S (B 40%Z 120%Z)))).
  rewrite feed_history in HB. cbn [history __init__ app] in HB.
  rewrite repeat_length in HB. lia.
Qed.

End History.

(** ** Python slices and the segments of the estimator contract *)

Section Slices.

Import BayesianEstimator.

Lemma length_segment (l : list R) (a b : nat) :
  length (segment l a b) = (b - a)%nat.
Proof. unfold segment. now rewrite length_map, length_seq. Qed.

Lemma firstn_skipn_segment (l : list R) (a b : nat) :
  (b <= length l)%nat ->
  firstn (b - a) (skipn a l) = segment l a b.
Proof.
  intros Hb.
  apply nth_ext with (d := 0) (d' := nth 0%nat l 0).
  - rewrite length_firstn, length_skipn, length_segment. lia.
  - intros i Hi.
    rewrite length_firstn, length_skipn in Hi.
    rewrite nth_firstn.
    assert (Hlt : (i <? b - a)%nat = true) by (apply Nat.ltb_lt; lia).
    rewrite Hlt, nth_skipn. unfold segment.
    rewrite (map_nth (fun i => nth i l 0)), seq_nth by lia.
    reflexivity.
Qed.

Lemma slice_segment (l : list R) (a b : Z) :
  (0 <= a)%Z -> (0 <= b <= Z.of_nat (length l))%Z ->
  Py.slice l (Some a) (Some b) = segment l (Z.to_nat a) (Z.to_nat b).
Proof.
  intros Ha Hb. unfold Py.slice, Py.clamp_index.
  destruct (Z.ltb_spec a 0); [lia |].
  destruct (Z.ltb_spec b 0); [lia |].
  destruct (Z.le_gt_cases a b) as [Hab | Hab].
  - replace (Z.to_nat (Z.max 0 (Z.min (Z.of_nat (length l)) b)
                       - Z.max 0 (Z.min (Z.of_nat (length l)) a)))
      with (Z.to_nat b - Z.to_nat a)%nat by lia.
    replace (Z.to_nat (Z.max 0 (Z.min (Z.of_nat (length l)) a)))
      with (Z.to_nat a) by lia.
    apply firstn_skipn_segment. lia.
  - replace (Z.to_nat (Z.max 0 (Z.min (Z.of_nat (length l)) b)
                       - Z.max 0 (Z.min (Z.of_nat (length l)) a)))
      with 0%nat by lia.
    unfold segment. replace (Z.to_nat b - Z.to_nat a)%nat with 0%nat by lia.
    reflexivity.
Qed.

Lemma slice_last_segment (l : list R) (w : Z) :
  (0 < w <= Z.of_nat (length l))%Z ->
  Py.slice l (Some (- w)%Z) None
  = segment l (length l - Z.to_nat w) (length l).
Proof.
  intros Hw. unfold Py.slice, Py.clamp_index.
  destruct (Z.ltb_spec (- w) 0); [| lia].
  replace (Z.to_nat (Z.of_nat (length l)
             - Z.max 0 (Z.min (Z.of_nat (length l))
                              (- w + Z.of_nat (length l)))))
    with (length l - (length l - Z.to_nat w))%nat by lia.
  replace (Z.to_nat (Z.max 0 (Z.min (Z.of_nat (length l))
                                    (- w + Z.of_nat (length l)))))
    with (length l - Z.to_nat w)%nat by lia.
  apply firstn_skipn_segment. lia.
Qed.

End Slices.

(** ** The Bayesian update *)

Section Update.

Import BayesianBondArbStrategy.

Lemma prior_data_segment (W P : Z) (pos : option Z) (h : list R) :
  (0 < W)%Z -> (W + 2 <= Z.of_nat (length h))%Z ->
  _get_prior_data (mk W P pos h) = BayesianEstimator.prior_segment W P h.
Proof.
  intros HW Hn. unfold _get_prior_data, BayesianEstimator.prior_segment, Py.len.
  cbn [history prior_window window_size].
  apply slice_segment; lia.
Qed.

Lemma window_data_segment (W P : Z) (pos : option Z) (h : list R) :
  (0 < W)%Z -> (W + 2 <= Z.of_nat (length h))%Z ->
  _get_window_data (mk W P pos h) = BayesianEstimator.window_segment W h.
Proof.
  intros HW Hn. unfold _get_window_data, BayesianEstimator.window_segment.
  cbn [history window_size].
  apply slice_last_segment; lia.
Qed.

Lemma window_segment_len (W : Z) (h : list R) :
  (0 < W)%Z -> (W + 2 <= Z.of_nat (length h))%Z ->
  NP.len (BayesianEstimator.window_segment W h) = IZR W.
Proof.
  intros HW Hn. unfold NP.len, BayesianEstimator.window_segment.
  rewrite length_segment, INR_IZR_INZ. f_equal. lia.
Qed.

(** The code in its normal form, on every call. *)
Lemma update_parameters_refines
    (W P : Z) (pos : option Z) (h : list R) (x : R) :
  (0 < W)%Z -> (0 < P)%Z ->
  update_parameters (mk W P pos h) x
  = (mk W P pos (h ++ [x]), update_by_segments W P h x).
Proof.
  intros HW HP. unfold update_parameters, update_by_segments, Py.len.
  cbn [history prior_window window_size position].
  destruct (Z.ltb_spec (Z.of_nat (length (h ++ [x]))) (W + 2)) as [Hn | Hn];
    [reflexivity |].
  rewrite prior_data_segment, window_data_segment, window_segment_len
    by assumption.
  reflexivity.
Qed.

End Update.

(** ** Evaluating float expressions on concrete inputs *)

Ltac np_unfold :=
  unfold NP.std, NP.mean, NP.var, NP.sqdev, NP.rmean, NP.sum, NP.len,
         NP.py_max, NP.gtb, NP.geb, NP.leb, NP.ltb, NP.eqb,
         NP.div, NP.mul, NP.scale_inf, NP.sub, NP.add, NP.neg, NP.sqrt.

Ltac np_step :=
  match goal with
  | |- context [Rlt_dec ?a ?b] => destruct (Rlt_dec a b); try lra
  | |- context [Rle_dec ?a ?b] => destruct (Rle_dec a b); try lra
  | |- context [Req_dec_T ?a ?b] => destruct (Req_dec_T a b); try lra
  end.

Ltac np_eval :=
  np_unfold; unfold Rltb, Rleb, Reqb;
  cbn [map fold_right length INR Nat.sub];
  repeat (np_step; cbn beta iota).

Section DegeneratePrior.

Import BayesianBondArbStrategy.

(** A run past warm-up on data that is not degenerate: prior [0; 1],
    window [2; 3], posterior variance 1/8 and posterior mean 3/2. *)
Example update_parameters_regular :
  snd (update_parameters (mk 2 2 None [0; 1; 2]) 3)
  = Estimate (Fin ((3 - 3 / 2) / sqrt (1 / 8))) (Fin (3 / 2))
             (Fin (sqrt (1 / 8))).
Proof.
  rewrite update_parameters_refines by lia.
  unfold update_by_segments, snd.
  change (BayesianEstimator.prior_segment 2 2 ([0; 1; 2] ++ [3]))
    with [0; 1].
  change (BayesianEstimator.window_segment 2 ([0; 1; 2] ++ [3]))
    with [2; 3].
  simpl (_ <? _)%Z. change (4 <? 4)%Z with false.
  cbn iota. unfold BayesianEstimator.epsilon.
  assert (Hm0 : NP.mean [0; 1] = Fin (1 / 2)) by (np_eval; f_equal; lra).
  assert (Ht2 : NP.var 0 [0; 1] = Fin (1 / 4)) by (np_eval; f_equal; lra).
  assert (Hxb : NP.mean [2; 3] = Fin (5 / 2)) by (np_eval; f_equal; lra).
  assert (Hwv : NP.var 1 [2; 3] = Fin (1 / 2)) by (np_eval; f_equal; lra).
  rewrite Hm0, Ht2, Hxb, Hwv.
  assert (Hs : 0 < sqrt (1 / 8)) by (apply sqrt_lt_R0; lra).
  assert (E8 : 1 / (2 / (1 / 2) + 1 / (1 / 4)) = 1 / 8) by lra.
  np_eval; rewrite ?E8 in *; try lra.
  f_equal; [unfold Rdiv; f_equal; f_equal; lra | f_equal; lra].
Qed.

(** C2 fails on the code.  On an all-zero stream (window 2, prior window 2)
    the prior segment [0; 0] has variance 0, which is used unfloored:
    [1/tau2] is a division by zero, the posterior variance collapses to 0,
    and the call returns [sigma_post = 0] with NaN for the z-score and the
    posterior mean. *)
Theorem update_parameters_constant_prior :
  update_parameters (mk 2 2 None [0; 0; 0]) 0
  = (mk 2 2 None [0; 0; 0; 0], Estimate NaN NaN (Fin 0)).
Proof.
  rewrite update_parameters_refines by lia.
  unfold update_by_segments.
  change (BayesianEstimator.prior_segment 2 2 ([0; 0; 0] ++ [0]))
    with [0; 0].
  change (BayesianEstimator.window_segment 2 ([0; 0; 0] ++ [0]))
    with [0; 0].
  simpl (_ <? _)%Z. change (4 <? 4)%Z with false.
  cbn iota. unfold BayesianEstimator.epsilon.
  np_eval.
  rewrite sqrt_0. reflexivity.
Qed.

(** The same collapse on every stream whose prior segment is constant. *)

Lemma sum_constant (c : R) (l : list R) :
  Forall (eq c) l -> NP.sum l = INR (length l) * c.
Proof.
  induction 1 as [| y l <- _ IH].
  - cbn. lra.
  - cbn [length]. rewrite S_INR. unfold NP.sum in *. cbn [fold_right].
    rewrite IH. ring.
Qed.

Lemma rmean_constant (c : R) (l : list R) :
  l <> [] -> Forall (eq c) l -> NP.rmean l = c.
Proof.
  intros Hne Hc. unfold NP.rmean, NP.len. rewrite (sum_constant c l Hc).
  assert (0 < INR (length l)).
  { destruct l; [contradiction |]. apply lt_0_INR. cbn. lia. }
  field. lra.
Qed.

Lemma var0_constant (c : R) (l : list R) :
  l <> [] -> Forall (eq c) l -> NP.var 0 l = Fin 0.
Proof.
  intros Hne Hc.
  assert (Hsq : NP.sum (NP.sqdev l) = 0).
  { rewrite (sum_constant 0 (NP.sqdev l)); [lra |].
    unfold NP.sqdev. rewrite (rmean_constant c l Hne Hc).
    apply Forall_map. eapply Forall_impl; [| exact Hc].
    intros y <-. cbn. lra. }
  assert (Hlen : 0 < INR (length l - 0)).
  { destruct l; [contradiction |]. apply lt_0_INR. cbn. lia. }
  unfold NP.var. destruct l; [contradiction |].
  rewrite Hsq. unfold NP.div. rewrite Reqb_false by lra.
  f_equal. unfold Rdiv. lra.
Qed.

Lemma sum_squares_nonneg (m : R) (l : list R) :
  0 <= NP.sum (map (fun x => (x - m) * (x - m)) l).
Proof.
  induction l as [| x l IH]; unfold NP.sum in *; cbn [map fold_right].
  - lra.
  - pose proof (Rle_0_sqr (x - m)) as Hsq. unfold Rsqr in Hsq. lra.
Qed.

(** The unbiased variance of at least two observations is a finite number
    that is not negative. *)
Lemma var1_nonneg (l : list R) :
  (2 <= length l)%nat -> exists v, NP.var 1 l = Fin v /\ 0 <= v.
Proof.
  intros Hlen.
  assert (Hn : 0 < INR (length l - 1)) by (apply lt_0_INR; lia).
  pose proof (sum_squares_nonneg (NP.rmean l) l) as Hsq.
  fold (NP.sqdev l) in Hsq.
  exists (NP.sum (NP.sqdev l) / INR (length l - 1)). split.
  - unfold NP.var. destruct l; [cbn in Hlen; lia |].
    unfold NP.div. now rewrite Reqb_false by lra.
  - unfold Rdiv. pose proof (Rinv_0_lt_compat _ Hn). nra.
Qed.

Lemma epsilon_pos : 0 < BayesianEstimator.epsilon.
Proof.
  unfold BayesianEstimator.epsilon.
  assert (0 < 10 ^ 8) by (apply pow_lt; lra).
  apply Rdiv_lt_0_compat; lra.
Qed.

(** With a window of at least two observations the floor applies: the
    window variance the posterior uses is a finite number >= 1e-8. *)
Lemma window_var_floored (l : list R) :
  (2 <= length l)%nat ->
  exists w,
    NP.py_max (NP.var 1 l) (Fin BayesianEstimator.epsilon) = Fin w /\
    BayesianEstimator.epsilon <= w.
Proof.
  intros Hlen. destruct (var1_nonneg l Hlen) as (v & -> & Hv).
  unfold NP.py_max, NP.gtb, NP.ltb, Rltb.
  destruct (Rlt_dec v BayesianEstimator.epsilon).
  - exists BayesianEstimator.epsilon. split; [reflexivity | lra].
  - exists v. split; [reflexivity | lra].
Qed.

(** With a single-observation window the unbiased variance is 0/0 and the
    floor does not apply: [max(nan, 1e-8)] is NaN, and so is the whole
    estimate. *)
Example update_parameters_window_1 :
  snd (update_parameters (mk 1 1 None [0; 1]) 2) = Estimate NaN NaN NaN.
Proof.
  rewrite update_parameters_refines by lia.
  unfold update_by_segments, snd.
  change (BayesianEstimator.prior_segment 1 1 ([0; 1] ++ [2])) with [1].
  change (BayesianEstimator.window_segment 1 ([0; 1] ++ [2])) with [2].
  simpl (_ <? _)%Z. change (3 <? 3)%Z with false.
  cbn iota. unfold BayesianEstimator.epsilon.
  np_eval; reflexivity.
Qed.

End DegeneratePrior.

(** ** The estimator contract *)

Section EstimatorContract.

Import BayesianBondArbStrategy.






End EstimatorContract.

(** ** The risk analyzer on an empty trade list *)

Section EmptyTrades.

Import StrategyRiskAnalyzer.

Variable norm_ppf : R -> npfloat.

(** On an empty trade list [_process_trades] sets neither [returns] nor
    [equity_curve]. *)
Lemma init_empty (capital : R) :
  __init__ [] capital = mk [] capital [] None None None.
Proof. reflexivity. Qed.

(** C3 fails on the code.  With no trades every statistic raises instead of
    returning a sentinel: the VaR methods, CVaR and the report stop at the
    attribute [returns], the drawdown statistics at [equity_curve], and the
    ['profit'] column that win rate and profit factor read does not
    exist. *)
Theorem empty_trades_raise (capital c : R) :
  let self := __init__ [] capital in
  compute_strategy_var norm_ppf self "historical" c
    = Raise (AttributeError "returns") /\
  compute_strategy_var norm_ppf self "gaussian" c
    = Raise (AttributeError "returns") /\
  compute_strategy_var norm_ppf self "cornish-fisher" c
    = Raise (AttributeError "_compute_skew") /\
  compute_strategy_cvar norm_ppf self c
    = Raise (AttributeError "returns") /\
  compute_trade_drawdowns self
    = Raise (AttributeError "equity_curve") /\
  df_profit self = Raise (KeyError "profit") /\
  generate_risk_report norm_ppf self
    = Raise (AttributeError "returns").
Proof.
  cbv zeta. rewrite init_empty. repeat split; reflexivity.
Qed.

(** ** Cornish-Fisher VaR *)

(** On finite arguments the expansion written in [_cornish_fisher_var] is
    [z + (z^2 - 1) skew / 6 + (z^3 - 3 z) kurt / 24
       - (2 z^3 - 5 z) skew^2 / 36]. *)
Lemma cornish_fisher_z_finite (z skew kurt : R) :
  cornish_fisher_z (Fin z) (Fin skew) (Fin kurt)
  = Fin (z + (z * z - 1) * skew / 6 + (z * z * z - 3 * z) * kurt / 24
         - (2 * (z * z * z) - 5 * z) * (skew * skew) / 36).
Proof.
  unfold cornish_fisher_z, NP.sub, NP.add, NP.neg, NP.mul, NP.div.
  rewrite !Reqb_false by lra. f_equal; lra.
Qed.

Lemma _cornish_fisher_var_undefined_helper (self : t) (c : R) :
  _cornish_fisher_var norm_ppf self c
    = Raise (AttributeError "_compute_skew").
Proof. reflexivity. Qed.

(** C4 fails on the code.  [_cornish_fisher_var] starts by calling
    [self._compute_skew()], which the class does not define, so the method
    raises on every instance and confidence level, whatever the trades. *)
Theorem cornish_fisher_var_raises (self : t) (c : R) :
  compute_strategy_var norm_ppf self "cornish-fisher" c
    = Raise (AttributeError "_compute_skew").
Proof. exact (_cornish_fisher_var_undefined_helper self c). Qed.

(** The report asks for the Cornish-Fisher VaR, so it raises on every
    instance. *)
Lemma generate_risk_report_raises (self : t) :
  exists e, generate_risk_report norm_ppf self = Raise e.
Proof.
  unfold generate_risk_report.
  destruct (compute_strategy_var norm_ppf self "historical" (95 / 100))
    as [v | e]; cbn [bind].
  - change (compute_strategy_var norm_ppf self "cornish-fisher" (95 / 100))
      with (_cornish_fisher_var norm_ppf self (95 / 100)).
    rewrite _cornish_fisher_var_undefined_helper. cbn [bind]. now eexists.
  - now eexists.
Qed.

End EmptyTrades.

(** ** Drawdown statistics *)

Section Drawdowns.

Import StrategyRiskAnalyzer.

Lemma recovery_flags_are_onsets (dd : list npfloat) :
  map (fun d => Z.eqb d 1)
      (Series.diff
         (map (fun d => if NP.ltb d (Fin 0) then 1%Z else 0%Z) dd))
  = DrawdownOnset.onsets dd.
Proof.
  induction dd as [| a [| b rest] IH]; try reflexivity.
  cbn [map Series.diff DrawdownOnset.onsets] in *.
  rewrite IH.
  destruct (NP.ltb a (Fin 0)), (NP.ltb b (Fin 0)); reflexivity.
Qed.

(** What [_compute_recovery_time] computes on every drawdown series: the
    fraction of transitions that enter a drawdown. *)
Lemma recovery_time_counts_onsets (dd : list npfloat) :
  _compute_recovery_time dd
  = if (0 <? length (DrawdownOnset.onsets dd))%nat
    then Series.bool_mean (DrawdownOnset.onsets dd) else 0.
Proof.
  unfold _compute_recovery_time. now rewrite recovery_flags_are_onsets.
Qed.

(** C5 fails on the code.  Profits 10 then -5 on a capital of 100 give the
    equity curve 110, 105 and the drawdowns 0, -5/110: the only transition
    goes into a drawdown, there is no recovery, and yet the code reports
    1 where the recovery rate is 0. *)
Theorem recovery_time_counts_entry_not_recovery :
  let self := __init__ [mk_trade long 10; mk_trade long (-5)] 100 in
  exists stats eq,
    compute_trade_drawdowns self = Ok stats /\
    equity_curve self = Some eq /\
    drawdown_series eq = [Fin 0; Fin (-5 / 110)] /\
    dd_recovery_time stats = 1 /\
    RecoverySpec.recovery_rate (drawdown_series eq) = 0.
Proof.
  cbv zeta.
  assert (Hdd : drawdown_series [100 + (0 + 10); 100 + (0 + 10 + -5)]
                = [Fin 0; Fin (-5 / 110)]).
  { cbv [drawdown_series Series.maximum_accumulate
         Series.maximum_accumulate_from combine map].
    unfold Rmax. np_eval. repeat f_equal; lra. }
  eexists. exists [100 + (0 + 10); 100 + (0 + 10 + -5)].
  split; [| split; [| split; [| split]]].
  - cbv [__init__ _process_trades trades compute_trade_drawdowns getattr
         equity_curve initial_capital map profit Series.cumsum
         Series.cumsum_from bind]. reflexivity.
  - reflexivity.
  - exact Hdd.
  - cbv [dd_recovery_time]. rewrite Hdd, recovery_time_counts_onsets.
    cbv [DrawdownOnset.onsets]. np_eval.
    cbv [negb andb length Nat.ltb Nat.leb Series.bool_mean filter INR].
    lra.
  - rewrite Hdd. cbv [RecoverySpec.recovery_rate RecoverySpec.recoveries].
    np_eval.
    cbv [negb andb length Nat.ltb Nat.leb Series.bool_mean filter INR].
    lra.
Qed.

(** *** Sign of the drawdowns *)











End Drawdowns.

(** ** The rolling-window backtest as a position machine *)

Section RollingBacktest.

Import BondArbBacktest PositionStateMachine.

(** One step of the loop body is one step of the band machine. *)
Lemma step_bands_machine (thr : R) (st : position) (i : nat) (r : row) :
  BondArbBacktest.step thr (code st) r = code (step_bands thr st i r).
Proof.
  unfold BondArbBacktest.step, step_bands.
  destruct st as [| i0 p0 | i0 p0]; cbn [code Z.eqb Pos.eqb andb orb].
  - destruct (NP.gtb _ _); [reflexivity |].
    destruct (NP.ltb _ _); reflexivity.
  - destruct (NP.geb _ _); reflexivity.
  - destruct (NP.leb _ _); reflexivity.
Qed.

Lemma loop_bands_machine (thr : R) (rows : list row) :
  forall (i : nat) (st : position),
    loop thr (S i) (code st) rows = map code (run_bands thr st (S i) rows).
Proof.
  induction rows as [| r rows IH]; intros i st; [reflexivity |].
  cbn [loop Nat.eqb map run_bands].
  rewrite (step_bands_machine thr st (S i) r).
  f_equal. apply IH.
Qed.

Lemma loop_length (thr : R) (rows : list row) : forall (i : nat) (pos : Z),
  length (loop thr i pos rows) = length rows.
Proof.
  induction rows as [| r rows IH]; intros i pos; [reflexivity |].
  cbn [loop]. destruct (i =? 0)%nat; cbn [length]; now rewrite IH.
Qed.

Lemma pnl_columns (ps : list Z) : forall (ss : list R) (p : Z) (s : R),
  length ps = length ss ->
  map (fun '(p, d) => NP.mul p d)
      (combine
         (fillna0 (firstn (length ps)
                          (Fin (IZR p) :: map (fun p => Fin (IZR p)) ps)))
         (fillna0 (map (fun '(b, a) => NP.sub b a)
                       (combine (map Fin ss) (Fin s :: map Fin ss)))))
  = pnl_no_cost p s ps ss.
Proof.
  induction ps as [| p1 ps IH]; intros [| s1 ss] p s Hlen;
    try reflexivity; try discriminate.
  cbn [length] in Hlen. injection Hlen as Hlen.
  cbn [length firstn map combine fillna0 pnl_no_cost].
  specialize (IH ss p1 s1 Hlen). unfold fillna0 in IH. rewrite IH.
  reflexivity.
Qed.

(** C7, as the code has it.  Row 0 is skipped and stays flat.  From row 1
    on the positions of [backtest] are those of the band machine: a flat
    position opens SHORT when [spread > mean + threshold * std] and LONG
    when [spread < mean - threshold * std], both strictly; a LONG position
    closes when [spread >= mean] and a SHORT one when [spread <= mean],
    whatever the threshold.  No cost is charged: where the spreads are
    numbers, the pnl of a row is the position held on the previous row
    times the change of the spread. *)
Theorem backtest_runs_band_machine
    (thr : R) (r0 : row) (rows : list row) :
  f_position (backtest thr (r0 :: rows))
  = 0%Z :: map code (run_bands thr FLAT 1 rows) /\
  forall (s0 : R) (ss : list R),
    spread r0 = Fin s0 -> map spread rows = map Fin ss ->
    f_pnl (backtest thr (r0 :: rows))
    = Fin 0 :: pnl_no_cost 0 s0 (map code (run_bands thr FLAT 1 rows)) ss.
Proof.
  unfold backtest. cbn [f_position f_pnl].
  assert (Hpos : positions thr (r0 :: rows)
                 = 0%Z :: loop thr 1 0%Z rows) by reflexivity.
  pose proof (loop_bands_machine thr rows 0 FLAT) as Hloop.
  cbn [code] in Hloop.
  split.
  - rewrite Hpos. f_equal. exact Hloop.
  - intros s0 ss Hs0 Hss. rewrite Hpos. cbn [map]. rewrite Hs0, Hss.
    unfold shift1, sdiff.
    cbn [length map firstn combine fillna0 Series.is_nan].
    rewrite length_map.
    pose proof (pnl_columns (loop thr 1 0 rows) ss 0%Z s0) as Hp.
    unfold fillna0 in *. rewrite Hp.
    + rewrite Hloop. unfold NP.mul. f_equal. f_equal. lra.
    + rewrite loop_length.
      rewrite <- (length_map spread rows), Hss. apply length_map.
Qed.

Lemma backtest_runs_band_machine_witness :
  spread (mk_row (Fin 0) (Fin 0) NaN) = Fin 0 /\
  map spread [mk_row (Fin 4) (Fin 1) (Fin 2)] = map Fin [4] /\
  f_pnl (backtest 1 [mk_row (Fin 0) (Fin 0) NaN;
                     mk_row (Fin 4) (Fin 1) (Fin 2)])
  = Fin 0 :: pnl_no_cost 0 0
               (map code (run_bands 1 FLAT 1
                            [mk_row (Fin 4) (Fin 1) (Fin 2)])) [4].
Proof.
  split; [reflexivity |]. split; [reflexivity |].
  apply (proj2 (backtest_runs_band_machine 1
                  (mk_row (Fin 0) (Fin 0) NaN)
                  [mk_row (Fin 4) (Fin 1) (Fin 2)]) 0 [4] eq_refl eq_refl).
Defined.

(** The band machine on a short frame: flat on row 0 whatever it holds,
    SHORT opened at row 1 where 4 > 1 + 1 * 2, kept at row 2 where
    3 > 2, closed at row 3 where 1 <= 2. *)
Example band_machine_round_trip :
  f_position
    (backtest 1 [mk_row (Fin 9) (Fin 0) (Fin 1);
                 mk_row (Fin 4) (Fin 1) (Fin 2);
                 mk_row (Fin 3) (Fin 2) (Fin 2);
                 mk_row (Fin 1) (Fin 2) (Fin 2)])
  = [0; -1; -1; 0]%Z.
Proof.
  cbv [backtest f_position positions loop BondArbBacktest.step Nat.eqb
       Z.eqb Pos.eqb spread rolling_mean rolling_std andb orb].
  np_eval; cbn [andb orb Z.eqb Pos.eqb]; try reflexivity; lra.
Qed.

Lemma sqrt_4 : sqrt 4 = 2.
Proof. replace 4 with (2 * 2) by lra. apply sqrt_square. lra. Qed.

(** The frame that [load_data] builds, with the default window of 20, from
    the spreads 0, 0, 0, 4: at the last row the rolling mean is 1 and the
    rolling standard deviation is 2, so the z-score is exactly 3/2. *)
Lemma load_data_0004 :
  load_data 20 [(0, 0); (0, 0); (0, 0); (4, 0)]
  = Ok [mk_row (Fin 0) (Fin 0) NaN;
        mk_row (Fin 0) (Fin 0) (Fin 0);
        mk_row (Fin 0) (Fin 0) (Fin 0);
        mk_row (Fin 4) (Fin 1) (Fin 2)].
Proof.
  unfold load_data.
  cbv - [Rminus Rplus Rmult Rdiv Rinv IZR NP.mean NP.std Ropp].
  rewrite !Rminus_0_r.
  assert (H1 : NP.mean [0] = Fin 0) by (np_eval; f_equal; lra).
  assert (H2 : NP.mean [0; 0] = Fin 0) by (np_eval; f_equal; lra).
  assert (H3 : NP.mean [0; 0; 0] = Fin 0) by (np_eval; f_equal; lra).
  assert (H4 : NP.mean [0; 0; 0; 4] = Fin 1) by (np_eval; f_equal; lra).
  assert (S1 : NP.std 1 [0] = NaN) by (np_eval; reflexivity).
  assert (S2 : NP.std 1 [0; 0] = Fin 0).
  { np_eval. f_equal. etransitivity; [| exact sqrt_0]. f_equal. lra. }
  assert (S3 : NP.std 1 [0; 0; 0] = Fin 0).
  { np_eval. f_equal. etransitivity; [| exact sqrt_0]. f_equal. lra. }
  assert (S4 : NP.std 1 [0; 0; 0; 4] = Fin 2).
  { np_eval. f_equal. etransitivity; [| exact sqrt_4]. f_equal. lra. }
  rewrite H1, H2, H3, H4, S1, S2, S3, S4. reflexivity.
Qed.

(** On that frame the code never leaves the flat position, while the
    contract machine, whatever its exit thresholds, opens SHORT at the last
    row. *)
Example positions_0004 :
  positions (3 / 2)
    [mk_row (Fin 0) (Fin 0) NaN; mk_row (Fin 0) (Fin 0) (Fin 0);
     mk_row (Fin 0) (Fin 0) (Fin 0); mk_row (Fin 4) (Fin 1) (Fin 2)]
  = [0; 0; 0; 0]%Z.
Proof.
  cbv [positions loop BondArbBacktest.step Nat.eqb Z.eqb spread rolling_mean
       rolling_std].
  np_eval; reflexivity.
Qed.

Example contract_positions_0004 (lx sx tc : R) :
  map code
    (run (mk_config (3 / 2) lx sx tc) FLAT 0
       (rolling_inputs
          [mk_row (Fin 0) (Fin 0) NaN; mk_row (Fin 0) (Fin 0) (Fin 0);
           mk_row (Fin 0) (Fin 0) (Fin 0); mk_row (Fin 4) (Fin 1) (Fin 2)]))
  = [0; 0; 0; -1]%Z.
Proof.
  cbv [spread rolling_mean rolling_std rolling_inputs rolling_z map run
       PositionStateMachine.step code fst entry_threshold].
  np_eval; cbn [code fst map orb andb]; try reflexivity; lra.
Qed.

(** C7 as stated fails.  With the default window 20 and threshold 1.5, the
    spreads 0, 0, 0, 4 put the last z-score exactly on the threshold: the
    contract opens SHORT there ([z >= entry_threshold]), the code stays
    flat ([spread > upper] is strict).  No choice of exit thresholds and
    cost for the contract machine reproduces the code. *)
Lemma rolling_backtest_entry_is_strict :
  ~ exists c : config,
      entry_threshold c = 3 / 2 /\
      forall (prices : list (R * R)) (rows : list row),
        load_data 20 prices = Ok rows ->
        positions (3 / 2) rows
        = map code (run c FLAT 0 (rolling_inputs rows)).
Proof.
  intros ([e lx sx tc] & He & H). cbn [entry_threshold] in He. subst e.
  specialize (H _ _ load_data_0004).
  rewrite positions_0004, contract_positions_0004 in H. discriminate.
Qed.

End RollingBacktest.

(** ** Historical VaR *)

Section SortedArray.

Lemma insert_length (x : R) (l : list R) :
  length (Series.insert x l) = S (length l).
Proof.
  induction l as [| y l IH]; [reflexivity |].
  cbn [Series.insert]. destruct (Rleb x y); cbn [length]; now rewrite ?IH.
Qed.

Lemma sort_length (l : list R) : length (Series.sort l) = length l.
Proof.
  induction l as [| x l IH]; [reflexivity |].
  unfold Series.sort in *. cbn [fold_right].
  now rewrite insert_length, IH.
Qed.

Lemma insert_In (x y : R) (l : list R) :
  In y (Series.insert x l) -> y = x \/ In y l.
Proof.
  induction l as [| z l IH]; cbn [Series.insert].
  - intros [<- | []]. now left.
  - destruct (Rleb x z).
    + intros [<- | H]; [now left | now right].
    + intros [<- | H]; [right; now left |].
      destruct (IH H) as [-> | Hin]; [now left | right; now right].
Qed.

Lemma insert_sorted (x : R) (l : list R) :
  StronglySorted Rle l -> StronglySorted Rle (Series.insert x l).
Proof.
  induction 1 as [| y l Hs IH Hy]; cbn [Series.insert].
  - repeat constructor.
  - unfold Rleb. destruct (Rle_dec x y) as [Hxy | Hxy].
    + constructor; [now constructor |].
      constructor; [exact Hxy |].
      eapply Forall_impl; [| exact Hy]. intros z Hz. cbn in Hz. lra.
    + constructor; [exact IH |].
      apply Forall_forall. intros z Hz.
      destruct (insert_In _ _ _ Hz) as [-> | Hin]; [lra |].
      rewrite Forall_forall in Hy. now apply Hy.
Qed.

Lemma sort_sorted (l : list R) : StronglySorted Rle (Series.sort l).
Proof.
  induction l as [| x l IH]; [constructor |].
  unfold Series.sort in *. cbn [fold_right]. now apply insert_sorted.
Qed.

Lemma sorted_nth (l : list R) :
  StronglySorted Rle l ->
  forall i j : nat, (i <= j < length l)%nat -> nth i l 0 <= nth j l 0.
Proof.
  induction 1 as [| x l Hs IH Hx]; intros i j Hij; cbn [length] in Hij.
  - lia.
  - destruct i as [| i], j as [| j]; cbn [nth]; try lra; try lia.
    + rewrite Forall_forall in Hx. apply Hx, nth_In. lia.
    + apply IH. lia.
Qed.

Lemma lerp_linear (a b t : R) : Series.lerp a b t = a + (b - a) * t.
Proof. unfold Series.lerp. destruct (Rleb (1 / 2) t); lra. Qed.

End SortedArray.

Section Quantile.

(** Below the last index the quantile interpolates between the order
    statistics [k] and [k + 1], where [k] is the floor of the virtual
    index. *)
Lemma quantile_linear_inner (a : list R) (q : R) :
  0 <= INR (length a - 1) * q < INR (length a - 1) ->
  exists k : nat,
    (S k < length a)%nat /\
    INR k <= INR (length a - 1) * q < INR k + 1 /\
    Series.quantile_linear a q
    = nth k (Series.sort a) 0
      + (nth (S k) (Series.sort a) 0 - nth k (Series.sort a) 0)
        * (INR (length a - 1) * q - INR k).
Proof.
  intros [H0 Hn]. unfold Series.quantile_linear. cbv zeta.
  set (h := INR (length a - 1) * q) in *.
  rewrite Rleb_false, Rltb_false by lra.
  destruct (base_Int_part h) as [Hlo Hhi].
  set (fl := Int_part h) in *.
  assert (Hfl : (0 <= fl)%Z).
  { assert (IZR (-1) < IZR fl) by (cbn; lra).
    apply lt_IZR in H. lia. }
  assert (Hk : INR (Z.to_nat fl) = IZR fl)
    by (rewrite INR_IZR_INZ; f_equal; lia).
  exists (Z.to_nat fl). rewrite Hk. repeat split; try lra.
  - assert (Hlt : INR (Z.to_nat fl) < INR (length a - 1)) by lra.
    apply INR_lt in Hlt. lia.
  - rewrite lerp_linear, Nat.add_1_r. reflexivity.
Qed.

(** From the last index on it is the largest order statistic. *)
Lemma quantile_linear_top (a : list R) (q : R) :
  INR (length a - 1) <= INR (length a - 1) * q ->
  Series.quantile_linear a q = nth (length a - 1) (Series.sort a) 0.
Proof.
  intros Hn. unfold Series.quantile_linear. cbv zeta.
  rewrite Rleb_true by lra. rewrite lerp_linear. lra.
Qed.

(** The interpolated value lies between the two order statistics. *)
Lemma interpolation_between (x y t : R) :
  x <= y -> 0 <= t < 1 -> x <= x + (y - x) * t <= y.
Proof. intros Hxy Ht. split; nra. Qed.

(** The quantile does not decrease with the quantile level. *)
Lemma quantile_linear_monotone (a : list R) (q1 q2 : R) :
  0 <= q1 -> q1 <= q2 ->
  Series.quantile_linear a q1 <= Series.quantile_linear a q2.
Proof.
  intros H0 H12.
  pose proof (sort_sorted a) as Hs.
  pose proof (sorted_nth _ Hs) as Hnth. rewrite sort_length in Hnth.
  pose proof (pos_INR (length a - 1)) as Hpos.
  assert (Hh0 : 0 <= INR (length a - 1) * q1) by nra.
  assert (Hh12 : INR (length a - 1) * q1 <= INR (length a - 1) * q2) by nra.
  destruct (Rle_dec (INR (length a - 1)) (INR (length a - 1) * q2))
    as [Htop2 | Hin2].
  - rewrite (quantile_linear_top a q2 Htop2).
    destruct (Rle_dec (INR (length a - 1)) (INR (length a - 1) * q1))
      as [Htop1 | Hin1].
    + rewrite (quantile_linear_top a q1 Htop1). lra.
    + destruct (quantile_linear_inner a q1) as (k & Hk & Hhk & ->); [lra |].
      pose proof (Hnth k (S k) ltac:(lia)).
      pose proof (Hnth (S k) (length a - 1)%nat ltac:(lia)).
      pose proof (interpolation_between
                    (nth k (Series.sort a) 0) (nth (S k) (Series.sort a) 0)
                    (INR (length a - 1) * q1 - INR k) ltac:(lra) ltac:(lra)).
      lra.
  - destruct (quantile_linear_inner a q1) as (k1 & Hk1 & Hh1 & ->); [lra |].
    destruct (quantile_linear_inner a q2) as (k2 & Hk2 & Hh2 & ->); [lra |].
    assert (Hk12 : (k1 <= k2)%nat).
    { assert (Hlt : INR k1 < INR (S k2)) by (rewrite S_INR; lra).
      apply INR_lt in Hlt. lia. }
    pose proof (Hnth k1 (S k1) ltac:(lia)) as Ha1.
    pose proof (Hnth k2 (S k2) ltac:(lia)) as Ha2.
    destruct (Nat.eq_dec k1 k2) as [<- | Hne].
    + nra.
    + pose proof (Hnth (S k1) k2 ltac:(lia)).
      pose proof (interpolation_between
                    (nth k1 (Series.sort a) 0) (nth (S k1) (Series.sort a) 0)
                    (INR (length a - 1) * q1 - INR k1) ltac:(lra) ltac:(lra)).
      pose proof (interpolation_between
                    (nth k2 (Series.sort a) 0) (nth (S k2) (Series.sort a) 0)
                    (INR (length a - 1) * q2 - INR k2) ltac:(lra) ltac:(lra)).
      lra.
Qed.

(** The 25th percentile of the sample 2, 1 is 1.25. *)
Example quantile_linear_quarter : Series.quantile_linear [2; 1] (1 / 4) = 5 / 4.
Proof.
  destruct (quantile_linear_inner [2; 1] (1 / 4)) as (k & Hk & Hh & ->).
  { cbn [length Nat.sub INR]. lra. }
  cbn [length] in Hk. assert (k = 0%nat) by lia. subst k.
  unfold Series.sort. cbn [fold_right Series.insert].
  rewrite Rleb_false by lra.
  cbn [nth length Nat.sub INR]. lra.
Qed.

Lemma finite_values_map_Fin (rs : list R) :
  Series.finite_values (map Fin rs) = Some rs.
Proof.
  induction rs as [| r rs IH]; [reflexivity |].
  cbn [map Series.finite_values]. now rewrite IH.
Qed.

(** [np.percentile] of a non-empty finite array at [100 * (1 - c)]. *)
Lemma percentile_finite (rs : list R) (c : R) :
  rs <> [] -> 0 < c < 1 ->
  Series.percentile (map Fin rs) (100 * (1 - c))
  = Ok (Fin (Series.quantile_linear rs (1 - c))).
Proof.
  intros Hne Hc. unfold Series.percentile. cbv zeta.
  replace (100 * (1 - c) / 100) with (1 - c) by lra.
  rewrite !Rleb_true by lra. cbn [andb].
  rewrite finite_values_map_Fin.
  destruct rs; [contradiction | reflexivity].
Qed.

End Quantile.

Section HistoricalVaR.

Import StrategyRiskAnalyzer.

Variable norm_ppf : R -> npfloat.

(** The per-trade returns of an analyzer built on at least one trade and a
    non-zero capital are the finite numbers [profit / initial_capital]. *)
Lemma init_returns (trades : list trade) (capital : R) :
  trades <> [] -> capital <> 0 ->
  returns (__init__ trades capital)
  = Some (map Fin (map (fun t => profit t / capital) trades)).
Proof.
  intros Hne Hcap. unfold __init__, _process_trades.
  cbn [StrategyRiskAnalyzer.trades initial_capital].
  destruct trades as [| t ts]; [contradiction |].
  cbn [returns]. f_equal. rewrite !map_map.
  apply map_ext. intros t'. unfold NP.div.
  now rewrite Reqb_false.
Qed.

(** C8. For a fixed non-empty sample of per-trade returns, the historical
    VaR is the [(1 - confidence)]-quantile by linear interpolation between
    order statistics, and it does not increase with the confidence
    level. *)
Theorem historical_var_nonincreasing
    (trades : list trade) (capital c1 c2 : R) :
  trades <> [] -> capital <> 0 -> 0 < c1 -> c1 <= c2 -> c2 < 1 ->
  let self := __init__ trades capital in
  let sample := map (fun t => profit t / capital) trades in
  exists v1 v2 : R,
    compute_strategy_var norm_ppf self "historical" c1 = Ok (Fin v1) /\
    compute_strategy_var norm_ppf self "historical" c2 = Ok (Fin v2) /\
    v1 = Series.quantile_linear sample (1 - c1) /\
    v2 = Series.quantile_linear sample (1 - c2) /\
    v2 <= v1.
Proof.
  intros Hne Hcap H1 H12 H2. cbv zeta.
  assert (Hs : map (fun t => profit t / capital) trades <> []).
  { destruct trades; [contradiction | discriminate]. }
  exists (Series.quantile_linear
            (map (fun t => profit t / capital) trades) (1 - c1)),
         (Series.quantile_linear
            (map (fun t => profit t / capital) trades) (1 - c2)).
  change (compute_strategy_var norm_ppf (__init__ trades capital)
            "historical" c1)
    with (_historical_var (__init__ trades capital) c1).
  change (compute_strategy_var norm_ppf (__init__ trades capital)
            "historical" c2)
    with (_historical_var (__init__ trades capital) c2).
  unfold _historical_var. rewrite (init_returns trades capital Hne Hcap).
  cbn [getattr bind].
  rewrite !percentile_finite by (try exact Hs; lra).
  repeat split.
  apply quantile_linear_monotone; lra.
Qed.

End HistoricalVaR.

Lemma historical_var_nonincreasing_witness :
  exists v1 v2 : R,
    StrategyRiskAnalyzer.compute_strategy_var (fun _ => NaN)
      (StrategyRiskAnalyzer.__init__
         [StrategyRiskAnalyzer.mk_trade StrategyRiskAnalyzer.long 10;
          StrategyRiskAnalyzer.mk_trade StrategyRiskAnalyzer.long (-5)] 100)
      "historical" (9 / 10) = Ok (Fin v1) /\
    StrategyRiskAnalyzer.compute_strategy_var (fun _ => NaN)
      (StrategyRiskAnalyzer.__init__
         [StrategyRiskAnalyzer.mk_trade StrategyRiskAnalyzer.long 10;
          StrategyRiskAnalyzer.mk_trade StrategyRiskAnalyzer.long (-5)] 100)
      "historical" (95 / 100) = Ok (Fin v2) /\
    v2 <= v1.
Proof.
  destruct (historical_var_nonincreasing (fun _ => NaN)
              [StrategyRiskAnalyzer.mk_trade StrategyRiskAnalyzer.long 10;
               StrategyRiskAnalyzer.mk_trade StrategyRiskAnalyzer.long (-5)]
              100 (9 / 10) (95 / 100))
    as (v1 & v2 & E1 & E2 & _ & _ & Hle);
    [discriminate | lra | lra | lra | lra |].
  exists v1, v2. repeat split; assumption.
Defined.

(* ================================================================== *)
(** * Further properties of the estimator *)

Section EstimatorStream.

Import BayesianBondArbStrategy.

Lemma update_is_warmup (self : t) (x : R) :
  is_warmup (snd (update_parameters self x))
  = (Z.of_nat (length (history self)) + 1 <? window_size self + 2)%Z.
Proof.
  unfold update_parameters, Py.len. cbn [history window_size].
  rewrite length_app. cbn [length].
  replace (Z.of_nat (length (history self) + 1))
    with (Z.of_nat (length (history self)) + 1)%Z by lia.
  destruct (_ <? _)%Z; reflexivity.
Qed.

Lemma feed_is_warmup (xs : list R) : forall self : t,
  map is_warmup (snd (feed self xs))
  = map (fun k => (Z.of_nat (length (history self) + k) + 1
                   <? window_size self + 2)%Z)
        (seq 0 (length xs)).
Proof.
  induction xs as [| x xs IH]; intros self; [reflexivity |].
  cbn [feed length seq map].
  pose proof (update_is_warmup self x) as Hw.
  pose proof (update_parameters_history self x) as Hh.
  pose proof (update_parameters_config self x) as [HW _].
  destruct (update_parameters self x) as [self1 e]. cbn [fst snd] in *.
  specialize (IH self1).
  destruct (feed self1 xs) as [self2 es]. cbn [snd map] in *.
  rewrite Hw, IH, Nat.add_0_r. f_equal.
  rewrite <- seq_shift, map_map. apply map_ext. intros k.
  rewrite Hh, HW, length_app. cbn [length].
  replace (length (history self) + 1 + k)%nat
    with (length (history self) + S k)%nat by lia.
  reflexivity.
Qed.

(** X1. On a fresh instance, the call number [k + 1] returns the warm-up
    sentinel exactly when [k < window_size + 1]: the first
    [window_size + 1] calls warm up, every later call returns an
    estimate, whatever the observations are. *)
Theorem warm_up_lasts_window_plus_one (W P : Z) (xs : list R) :
  map is_warmup (snd (feed (__init__ W P) xs))
  = map (fun k => (Z.of_nat k <? W + 1)%Z) (seq 0 (length xs)).
Proof.
  rewrite feed_is_warmup. cbn [history window_size __init__ length].
  apply map_ext. intros k. cbn [Nat.add].
  destruct (Z.ltb_spec (Z.of_nat k + 1) (W + 2)),
           (Z.ltb_spec (Z.of_nat k) (W + 1)); try reflexivity; lia.
Qed.

(** X2. Past warm-up the prior data and the window data are adjacent and
    disjoint: the window is the last [W] observations, the prior data the
    [min(P, n - W)] observations right before it, and together they are
    the tail of the history from index [max(0, n - P - W)]. *)
Theorem prior_then_window (W P : Z) (pos : option Z) (h : list R) :
  (0 < W)%Z -> (0 <= P)%Z -> (W <= Z.of_nat (length h))%Z ->
  let self := mk W P pos h in
  let n := Z.of_nat (length h) in
  _get_prior_data self ++ _get_window_data self
    = skipn (Z.to_nat (Z.max 0 (n - P - W))) h /\
  length (_get_window_data self) = Z.to_nat W /\
  length (_get_prior_data self) = Z.to_nat (Z.min P (n - W)).
Proof.
  intros HW HP Hn. cbv zeta.
  unfold _get_prior_data, _get_window_data, Py.slice, Py.clamp_index, Py.len.
  cbn [history prior_window window_size].
  set (n := Z.of_nat (length h)) in *.
  destruct (Z.ltb_spec (Z.max 0 (n - P - W)) 0); [lia |].
  destruct (Z.ltb_spec (n - W) 0); [lia |].
  destruct (Z.ltb_spec (- W) 0); [| lia].
  set (a := Z.to_nat (Z.max 0 (n - P - W))).
  set (b := Z.to_nat (n - W)).
  replace (Z.to_nat (Z.max 0 (Z.min n (Z.max 0 (n - P - W))))) with a by lia.
  replace (Z.to_nat (Z.max 0 (Z.min n (n - W))
                     - Z.max 0 (Z.min n (Z.max 0 (n - P - W)))))
    with (b - a)%nat by lia.
  replace (Z.to_nat (Z.max 0 (Z.min n (- W + n)))) with b by lia.
  replace (Z.to_nat (n - Z.max 0 (Z.min n (- W + n))))
    with (length h - b)%nat by lia.
  assert (Hab : (a <= b <= length h)%nat) by lia.
  rewrite (firstn_all2 (n := length h - b)) by (rewrite length_skipn; lia).
  repeat split.
  - replace b with ((b - a) + a)%nat at 2 by lia.
    rewrite <- skipn_skipn. apply firstn_skipn.
  - rewrite length_skipn. lia.
  - rewrite length_firstn, length_skipn. lia.
Qed.

Lemma prior_then_window_witness :
  _get_prior_data (mk 2 2 None [0; 1; 2; 3; 4])
  ++ _get_window_data (mk 2 2 None [0; 1; 2; 3; 4])
  = skipn (Z.to_nat (Z.max 0 (Z.of_nat 5 - 2 - 2))) [0; 1; 2; 3; 4].
Proof.
  apply (prior_then_window 2 2 None [0; 1; 2; 3; 4]); cbn; lia.
Defined.

(** The slices of [update_parameters] look at the tail of the history
    only. *)
Lemma prior_data_tail (W P : Z) (pos : option Z) (pre l : list R) :
  (0 < W)%Z -> (0 < P)%Z -> (P + W <= Z.of_nat (length l))%Z ->
  _get_prior_data (mk W P pos (pre ++ l)) = _get_prior_data (mk W P pos l).
Proof.
  intros HW HP Hn.
  unfold _get_prior_data, Py.slice, Py.clamp_index, Py.len.
  cbn [history prior_window window_size].
  rewrite length_app.
  set (m := length pre). set (n := length l) in *.
  destruct (Z.ltb_spec (Z.max 0 (Z.of_nat (m + n) - P - W)) 0); [lia |].
  destruct (Z.ltb_spec (Z.of_nat (m + n) - W) 0); [lia |].
  destruct (Z.ltb_spec (Z.max 0 (Z.of_nat n - P - W)) 0); [lia |].
  destruct (Z.ltb_spec (Z.of_nat n - W) 0); [lia |].
  match goal with
  | |- firstn ?k1 (skipn ?s1 _) = firstn ?k2 (skipn ?s2 _) =>
      replace k1 with k2 by lia;
      replace s1 with (m + s2)%nat by lia
  end.
  f_equal. rewrite skipn_app.
  rewrite skipn_all2 by (fold m; lia). cbn [app]. f_equal. fold m. lia.
Qed.

Lemma window_data_tail (W P : Z) (pos : option Z) (pre l : list R) :
  (0 < W)%Z -> (W <= Z.of_nat (length l))%Z ->
  _get_window_data (mk W P pos (pre ++ l))
  = _get_window_data (mk W P pos l).
Proof.
  intros HW Hn.
  unfold _get_window_data, Py.slice, Py.clamp_index.
  cbn [history window_size].
  rewrite length_app.
  set (m := length pre). set (n := length l) in *.
  destruct (Z.ltb_spec (- W) 0); [| lia].
  match goal with
  | |- firstn ?k1 (skipn ?s1 _) = firstn ?k2 (skipn ?s2 _) =>
      replace k1 with k2 by lia;
      replace s1 with (m + s2)%nat by lia
  end.
  f_equal. rewrite skipn_app.
  rewrite skipn_all2 by (fold m; lia). cbn [app]. f_equal. fold m. lia.
Qed.

(** X3. Past warm-up an estimate depends on the last [P + W] observations
    only: older observations, however many, do not change what
    [update_parameters] returns. *)
Theorem estimate_uses_last_observations
    (W P : Z) (pos : option Z) (pre h : list R) (x : R) :
  (0 < W)%Z -> (0 < P)%Z ->
  (P + W <= Z.of_nat (length (h ++ [x])))%Z ->
  (W + 2 <= Z.of_nat (length (h ++ [x])))%Z ->
  snd (update_parameters (mk W P pos (pre ++ h)) x)
  = snd (update_parameters (mk W P pos h) x).
Proof.
  intros HW HP HPW Hn. unfold update_parameters, Py.len.
  cbn [history prior_window window_size position].
  rewrite <- app_assoc.
  assert (Hlen : length (pre ++ h ++ [x])
                 = (length pre + length (h ++ [x]))%nat)
    by (now rewrite length_app).
  destruct (Z.ltb_spec (Z.of_nat (length (pre ++ h ++ [x]))) (W + 2));
    [lia |].
  destruct (Z.ltb_spec (Z.of_nat (length (h ++ [x]))) (W + 2)); [lia |].
  cbn [snd].
  rewrite (prior_data_tail W P pos pre (h ++ [x])) by lia.
  rewrite (window_data_tail W P pos pre (h ++ [x])) by lia.
  reflexivity.
Qed.

Lemma estimate_uses_last_observations_witness :
  snd (update_parameters (mk 2 2 None ([7; 8; 9] ++ [0; 1; 2])) 3)
  = snd (update_parameters (mk 2 2 None [0; 1; 2]) 3).
Proof.
  apply (estimate_uses_last_observations 2 2 None [7; 8; 9] [0; 1; 2] 3);
    cbn; lia.
Defined.

End EstimatorStream.

Lemma np_mean_fin (l : list R) : l <> [] -> NP.mean l = Fin (NP.rmean l).
Proof.
  intros Hne. unfold NP.mean, NP.rmean, NP.len. apply np_div_fin.
  destruct l; [contradiction |].
  apply Rgt_not_eq, lt_0_INR. cbn. lia.
Qed.

(* ================================================================== *)
(** * Further properties of the risk analyzer *)

Section QuantileBounds.

Lemma insert_In_inv (x y : R) (l : list R) :
  y = x \/ In y l -> In y (Series.insert x l).
Proof.
  induction l as [| z l IH]; cbn [Series.insert].
  - intros [-> | []]. now left.
  - destruct (Rleb x z).
    + intros [-> | H]; [now left | now right].
    + intros [-> | [<- | H]].
      * right. apply IH. now left.
      * now left.
      * right. apply IH. now right.
Qed.

Lemma sort_In (y : R) (l : list R) : In y (Series.sort l) <-> In y l.
Proof.
  induction l as [| x l IH]; [reflexivity |].
  unfold Series.sort in *. cbn [fold_right]. split.
  - intros H. destruct (insert_In _ _ _ H) as [-> | Hin];
      [now left | right; now apply IH].
  - intros [<- | H]; apply insert_In_inv; [now left | right; now apply IH].
Qed.

Lemma sorted_first_least (l : list R) (y : R) :
  In y l -> nth 0 (Series.sort l) 0 <= y.
Proof.
  intros Hin. apply sort_In in Hin.
  destruct (In_nth _ _ 0 Hin) as (j & Hj & <-).
  apply sorted_nth; [apply sort_sorted | lia].
Qed.

Lemma sorted_last_greatest (l : list R) (y : R) :
  In y l -> y <= nth (length l - 1) (Series.sort l) 0.
Proof.
  intros Hin. apply sort_In in Hin.
  destruct (In_nth _ _ 0 Hin) as (j & Hj & <-).
  apply sorted_nth; [apply sort_sorted |].
  rewrite sort_length in *. lia.
Qed.

Lemma sorted_nth_In (l : list R) (k : nat) :
  (k < length l)%nat -> In (nth k (Series.sort l) 0) l.
Proof.
  intros Hk. apply sort_In, nth_In. now rewrite sort_length.
Qed.

(** At level 0 the quantile is the least order statistic, at level 1 the
    greatest. *)
Lemma quantile_linear_0 (a : list R) :
  a <> [] -> Series.quantile_linear a 0 = nth 0 (Series.sort a) 0.
Proof.
  intros Hne.
  assert (Hlen : (0 < length a)%nat) by (destruct a; [contradiction | cbn; lia]).
  destruct (Nat.eq_dec (length a) 1) as [E1 | N1].
  - rewrite quantile_linear_top by (rewrite E1; cbn; lra).
    now rewrite E1.
  - assert (Hpos : 0 < INR (length a - 1)) by (apply lt_0_INR; lia).
    destruct (quantile_linear_inner a 0) as (k & Hk & Hh & ->); [lra |].
    assert (k = 0%nat).
    { assert (INR k < INR 1) by (cbn; lra). apply INR_lt in H. lia. }
    subst k. cbn [INR]. lra.
Qed.

Lemma quantile_linear_1 (a : list R) :
  Series.quantile_linear a 1 = nth (length a - 1) (Series.sort a) 0.
Proof. apply quantile_linear_top. lra. Qed.

(** [np.percentile] of a non-empty finite array at any valid level. *)
Lemma percentile_finite_closed (rs : list R) (c : R) :
  rs <> [] -> 0 <= c <= 1 ->
  Series.percentile (map Fin rs) (100 * (1 - c))
  = Ok (Fin (Series.quantile_linear rs (1 - c))).
Proof.
  intros Hne Hc. unfold Series.percentile. cbv zeta.
  replace (100 * (1 - c) / 100) with (1 - c) by lra.
  rewrite !Rleb_true by lra. cbn [andb].
  rewrite finite_values_map_Fin.
  destruct rs; [contradiction | reflexivity].
Qed.

Lemma percentile_out_of_range (a : list npfloat) (c : R) :
  c < 0 \/ 1 < c ->
  Series.percentile a (100 * (1 - c))
  = Raise (ValueError "Percentiles must be in the range [0, 100]").
Proof.
  intros Hc. unfold Series.percentile. cbv zeta.
  replace (100 * (1 - c) / 100) with (1 - c) by lra.
  destruct Hc.
  - rewrite (Rleb_false (1 - c) 1) by lra. now rewrite andb_false_r.
  - now rewrite (Rleb_false 0 (1 - c)) by lra.
Qed.

End QuantileBounds.

Section RiskMore.

Import StrategyRiskAnalyzer.

Variable norm_ppf : R -> npfloat.

Lemma historical_var_value (trades : list trade) (capital c : R) :
  trades <> [] -> capital <> 0 -> 0 <= c <= 1 ->
  compute_strategy_var norm_ppf (__init__ trades capital) "historical" c
  = Ok (Fin (Series.quantile_linear
               (map (fun t => profit t / capital) trades) (1 - c))).
Proof.
  intros Hne Hcap Hc.
  change (compute_strategy_var norm_ppf (__init__ trades capital)
            "historical" c)
    with (_historical_var (__init__ trades capital) c).
  unfold _historical_var. rewrite (init_returns trades capital Hne Hcap).
  cbn [getattr bind]. apply percentile_finite_closed; [| exact Hc].
  destruct trades; [contradiction | discriminate].
Qed.

Lemma historical_var_sample_bounds
    (trades : list trade) (capital c : R) :
  trades <> [] -> capital <> 0 -> 0 <= c <= 1 ->
  let self := __init__ trades capital in
  let sample := map (fun t => profit t / capital) trades in
  exists v lo hi : R,
    compute_strategy_var norm_ppf self "historical" c = Ok (Fin v) /\
    compute_strategy_var norm_ppf self "historical" 1 = Ok (Fin lo) /\
    compute_strategy_var norm_ppf self "historical" 0 = Ok (Fin hi) /\
    In lo sample /\ In hi sample /\
    Forall (fun r => lo <= r <= hi) sample /\
    lo <= v <= hi.
Proof.
  intros Hne Hcap Hc. cbv zeta.
  set (sample := map (fun t => profit t / capital) trades).
  assert (Hs : sample <> [])
    by (unfold sample; destruct trades; [contradiction | discriminate]).
  assert (Hlen : (0 < length sample)%nat)
    by (destruct sample; [contradiction | cbn; lia]).
  exists (Series.quantile_linear sample (1 - c)),
         (nth 0 (Series.sort sample) 0),
         (nth (length sample - 1) (Series.sort sample) 0).
  rewrite !historical_var_value by (try assumption; lra).
  fold sample.
  replace (1 - 1) with 0 by lra. replace (1 - 0) with 1 by lra.
  rewrite quantile_linear_0, quantile_linear_1 by exact Hs.
  repeat split.
  - apply sorted_nth_In. lia.
  - apply sorted_nth_In. lia.
  - apply Forall_forall. intros r Hr. split;
      [now apply sorted_first_least | now apply sorted_last_greatest].
  - rewrite <- (quantile_linear_0 sample Hs).
    apply quantile_linear_monotone; lra.
  - rewrite <- (quantile_linear_1 sample).
    apply quantile_linear_monotone; lra.
Qed.

(** X6. On at least one trade and a non-zero capital, the historical VaR
    at any confidence level in [0, 1] is a finite number between the
    smallest and the largest per-trade return; at confidence 1 it is the
    smallest return and at confidence 0 the largest. *)
Theorem historical_var_within_sample
    (trades : list trade) (capital c : R) :
  trades <> [] -> capital <> 0 -> 0 <= c <= 1 ->
  let self := __init__ trades capital in
  let sample := map (fun t => profit t / capital) trades in
  exists v lo hi : R,
    compute_strategy_var norm_ppf self "historical" c = Ok (Fin v) /\
    compute_strategy_var norm_ppf self "historical" 1 = Ok (Fin lo) /\
    compute_strategy_var norm_ppf self "historical" 0 = Ok (Fin hi) /\
    In lo sample /\ In hi sample /\
    Forall (fun r => lo <= r <= hi) sample /\
    lo <= v <= hi.
Proof. exact (historical_var_sample_bounds trades capital c). Qed.

(** X7. A confidence level above 1, or below 0 by at least 1e-15, makes
    the historical VaR raise the range error of [np.percentile], whenever
    there is at least one trade.  (A negative level nearer to 0 than the
    spacing of the floats around 1 is absorbed when [1 - confidence] is
    formed, and is left out.) *)
Theorem historical_var_rejects_confidence
    (trades : list trade) (capital c : R) :
  trades <> [] -> c <= - (1 / 10 ^ 15) \/ 1 < c ->
  compute_strategy_var norm_ppf (__init__ trades capital) "historical" c
  = Raise (ValueError "Percentiles must be in the range [0, 100]").
Proof.
  intros Hne Hc.
  assert (Hc' : c < 0 \/ 1 < c).
  { destruct Hc as [Hc | Hc]; [left | right; exact Hc].
    assert (0 < 1 / 10 ^ 15)
      by (apply Rdiv_lt_0_compat; [lra | apply pow_lt; lra]).
    lra. }
  change (compute_strategy_var norm_ppf (__init__ trades capital)
            "historical" c)
    with (_historical_var (__init__ trades capital) c).
  unfold _historical_var, __init__, _process_trades.
  cbn [StrategyRiskAnalyzer.trades].
  destruct trades as [| t ts]; [contradiction |].
  cbn [returns getattr bind]. now apply percentile_out_of_range.
Qed.

End RiskMore.

Lemma historical_var_within_sample_witness :
  exists v lo hi : R,
    StrategyRiskAnalyzer.compute_strategy_var (fun _ => NaN)
      (StrategyRiskAnalyzer.__init__
         [StrategyRiskAnalyzer.mk_trade StrategyRiskAnalyzer.long 10;
          StrategyRiskAnalyzer.mk_trade StrategyRiskAnalyzer.short (-5)] 100)
      "historical" (95 / 100) = Ok (Fin v) /\
    lo <= v <= hi.
Proof.
  destruct (historical_var_within_sample (fun _ => NaN)
              [StrategyRiskAnalyzer.mk_trade StrategyRiskAnalyzer.long 10;
               StrategyRiskAnalyzer.mk_trade StrategyRiskAnalyzer.short (-5)]
              100 (95 / 100))
    as (v & lo & hi & E & _ & _ & _ & _ & _ & Hb);
    [discriminate | lra | lra |].
  exists v, lo, hi. split; assumption.
Defined.

Lemma historical_var_rejects_confidence_witness :
  StrategyRiskAnalyzer.compute_strategy_var (fun _ => NaN)
    (StrategyRiskAnalyzer.__init__
       [StrategyRiskAnalyzer.mk_trade StrategyRiskAnalyzer.long 10] 100)
    "historical" (3 / 2)
  = Raise (ValueError "Percentiles must be in the range [0, 100]").
Proof.
  apply (historical_var_rejects_confidence (fun _ => NaN)
           [StrategyRiskAnalyzer.mk_trade StrategyRiskAnalyzer.long 10]
           100 (3 / 2)); [discriminate | right; lra].
Defined.

Section ConditionalVaR.

Import StrategyRiskAnalyzer.

Variable norm_ppf : R -> npfloat.

Lemma dropna_map_Fin (l : list R) : Series.dropna (map Fin l) = map Fin l.
Proof.
  induction l as [| x l IH]; [reflexivity |].
  unfold Series.dropna in *. cbn [map filter Series.is_nan negb].
  now rewrite IH.
Qed.

Lemma fsum_map_Fin (l : list R) : Series.fsum (map Fin l) = Fin (NP.sum l).
Proof.
  induction l as [| x l IH]; [reflexivity |].
  unfold Series.fsum, NP.sum in *. cbn [map fold_right]. now rewrite IH.
Qed.

Lemma series_mean_finite (l : list R) :
  l <> [] -> Series.mean (map Fin l) = Fin (NP.sum l / INR (length l)).
Proof.
  intros Hne. unfold Series.mean.
  rewrite dropna_map_Fin, fsum_map_Fin, length_map.
  apply np_div_fin. destruct l; [contradiction |].
  apply Rgt_not_eq, lt_0_INR. cbn. lia.
Qed.

Lemma filter_leb_map_Fin (v : R) (l : list R) :
  filter (fun r => NP.leb r (Fin v)) (map Fin l)
  = map Fin (filter (fun r => Rltb r v || Reqb r v) l).
Proof.
  induction l as [| x l IH]; [reflexivity |].
  cbn [map filter]. rewrite IH.
  change (NP.leb (Fin x) (Fin v)) with (Rltb x v || Reqb x v).
  destruct (Rltb x v || Reqb x v); reflexivity.
Qed.

Lemma leb_real_spec (r v : R) : Rltb r v || Reqb r v = true <-> r <= v.
Proof.
  unfold Rltb, Reqb.
  destruct (Rlt_dec r v), (Req_dec_T r v); cbn; split; intros; try lra;
    try reflexivity; discriminate.
Qed.

(** X8. On at least one trade and a non-zero capital, the conditional VaR
    at any confidence level in [0, 1] is defined: the returns at or below
    the historical VaR at that level always include the smallest return,
    so the tail is not empty, and the conditional VaR is the finite mean
    of that tail. *)
Theorem cvar_is_mean_of_nonempty_tail
    (trades : list trade) (capital c : R) :
  trades <> [] -> capital <> 0 -> 0 <= c <= 1 ->
  let self := __init__ trades capital in
  let sample := map (fun t => profit t / capital) trades in
  exists (var : R) (tail : list R),
    compute_strategy_var norm_ppf self "historical" c = Ok (Fin var) /\
    tail = filter (fun r => Rltb r var || Reqb r var) sample /\
    (forall lo, In lo sample -> Forall (fun r => lo <= r) sample ->
                In lo tail) /\
    tail <> [] /\
    compute_strategy_cvar norm_ppf self c
    = Ok (Fin (NP.sum tail / INR (length tail))).
Proof.
  intros Hne Hcap Hc. cbv zeta.
  destruct (historical_var_sample_bounds norm_ppf trades capital c
              Hne Hcap Hc) as (v & lo & hi & Ev & _ & _ & Hlo & _ & Hall & Hv).
  set (sample := map (fun t => profit t / capital) trades) in *.
  set (tail := filter (fun r => Rltb r v || Reqb r v) sample).
  assert (Hleast : forall lo', In lo' sample ->
                     Forall (fun r => lo' <= r) sample -> In lo' tail).
  { intros lo' Hin Hmin. apply filter_In. split; [exact Hin |].
    apply leb_real_spec.
    pose proof (proj1 (Forall_forall _ _) Hmin lo Hlo). cbn beta in *. lra. }
  assert (Htail : tail <> []).
  { assert (Hin : In lo tail).
    { apply Hleast; [exact Hlo |].
      apply Forall_forall. intros r Hr.
      apply (proj1 (Forall_forall _ _) Hall r Hr). }
    intros E. rewrite E in Hin. contradiction. }
  exists v, tail.
  split; [exact Ev |]. split; [reflexivity |].
  split; [exact Hleast |]. split; [exact Htail |].
  unfold compute_strategy_cvar. rewrite Ev. cbn [bind].
  rewrite (init_returns trades capital Hne Hcap). cbn [getattr bind].
  fold sample. rewrite filter_leb_map_Fin. fold tail.
  now rewrite series_mean_finite.
Qed.

End ConditionalVaR.

Lemma cvar_is_mean_of_nonempty_tail_witness :
  exists (var : R) (tail : list R),
    tail <> [] /\
    StrategyRiskAnalyzer.compute_strategy_cvar (fun _ => NaN)
      (StrategyRiskAnalyzer.__init__
         [StrategyRiskAnalyzer.mk_trade StrategyRiskAnalyzer.long 10;
          StrategyRiskAnalyzer.mk_trade StrategyRiskAnalyzer.short (-5)] 100)
      (95 / 100) = Ok (Fin (NP.sum tail / INR (length tail))).
Proof.
  destruct (cvar_is_mean_of_nonempty_tail (fun _ => NaN)
              [StrategyRiskAnalyzer.mk_trade StrategyRiskAnalyzer.long 10;
               StrategyRiskAnalyzer.mk_trade StrategyRiskAnalyzer.short (-5)]
              100 (95 / 100))
    as (var & tail & _ & _ & _ & Hne & E); [discriminate | lra | lra |].
  exists var, tail. split; assumption.
Defined.

Section DrawdownsMore.

Import StrategyRiskAnalyzer.

Lemma drawdown_at_peak (e : R) : 0 < e -> NP.div (Fin (e - e)) (Fin e) = Fin 0.
Proof.
  intros He. rewrite np_div_fin by lra. f_equal. unfold Rdiv. lra.
Qed.

Lemma drawdowns_from_never_losing (capital : R) (ps : list R) :
  forall acc : R,
    0 < capital + acc -> Forall (fun p => 0 <= p) ps ->
    map (fun '(e, m) => NP.div (Fin (e - m)) (Fin m))
        (combine (map (fun c => capital + c) (Series.cumsum_from acc ps))
                 (Series.maximum_accumulate_from (capital + acc)
                    (map (fun c => capital + c)
                         (Series.cumsum_from acc ps))))
    = repeat (Fin 0) (length ps).
Proof.
  induction ps as [| p ps IH]; intros acc Hacc Hps; [reflexivity |].
  inversion Hps as [| ? ? Hp Hps']; subst.
  cbn [Series.cumsum_from map Series.maximum_accumulate_from combine length
       repeat].
  rewrite Rmax_right by lra.
  rewrite drawdown_at_peak by lra. f_equal.
  apply IH; [lra | exact Hps'].
Qed.

Lemma fold_min_zeros (n : nat) :
  fold_left (fun m x => if NP.ltb x m then x else m) (repeat (Fin 0) n)
            (Fin 0)
  = Fin 0.
Proof.
  induction n as [| n IH]; [reflexivity |].
  cbn [repeat fold_left].
  replace (NP.ltb (Fin 0) (Fin 0)) with false; [exact IH |].
  unfold NP.ltb. now rewrite Rltb_false by lra.
Qed.

Lemma dropna_zeros (n : nat) :
  Series.dropna (repeat (Fin 0) n) = repeat (Fin 0) n.
Proof.
  induction n as [| n IH]; [reflexivity |].
  unfold Series.dropna in *. cbn [repeat filter Series.is_nan negb].
  now rewrite IH.
Qed.

Lemma series_min_zeros (n : nat) : Series.min (repeat (Fin 0) (S n)) = Fin 0.
Proof.
  unfold Series.min. rewrite dropna_zeros. cbn [repeat].
  apply fold_min_zeros.
Qed.

Lemma bool_mean_all_false (l : list bool) :
  Forall (eq false) l -> Series.bool_mean l = 0.
Proof.
  intros H. unfold Series.bool_mean.
  replace (filter (fun b => b) l) with (@nil bool).
  - cbn. unfold Rdiv. lra.
  - induction H as [| b l <- _ IH]; [reflexivity | exact IH].
Qed.

Lemma onsets_zeros_cons (n : nat) :
  Forall (eq false) (DrawdownOnset.onsets (Fin 0 :: repeat (Fin 0) n)).
Proof.
  induction n as [| n IH]; [constructor |].
  cbn [repeat]. cbn [DrawdownOnset.onsets]. constructor; [| exact IH].
  replace (NP.ltb (Fin 0) (Fin 0)) with false; [reflexivity |].
  unfold NP.ltb. now rewrite Rltb_false by lra.
Qed.

Lemma onsets_zeros (n : nat) :
  Forall (eq false) (DrawdownOnset.onsets (repeat (Fin 0) n)).
Proof.
  destruct n as [| n]; [constructor | apply onsets_zeros_cons].
Qed.

(** X9. A trade list without a losing trade, on a positive capital, has no
    drawdown at all: the statistics are returned with [max_drawdown],
    [drawdown_duration] and [recovery_time] all equal to 0. *)
Theorem never_losing_has_no_drawdown (trades : list trade) (capital : R) :
  trades <> [] -> 0 < capital ->
  Forall (fun t => 0 <= profit t) trades ->
  compute_trade_drawdowns (__init__ trades capital)
  = Ok (mk_drawdown_stats (Fin 0) 0 0).
Proof.
  intros Hne Hcap Hall.
  destruct trades as [| t ts]; [contradiction |].
  inversion Hall as [| ? ? Ht Hts]; subst.
  unfold compute_trade_drawdowns, __init__, _process_trades.
  cbn [StrategyRiskAnalyzer.trades equity_curve initial_capital getattr bind].
  assert (Hdd : drawdown_series
                  (map (fun c => capital + c)
                       (Series.cumsum (map profit (t :: ts))))
                = repeat (Fin 0) (S (length ts))).
  { unfold drawdown_series, Series.cumsum.
    cbn [map Series.cumsum_from Series.maximum_accumulate combine repeat].
    rewrite drawdown_at_peak by lra. f_equal.
    rewrite (drawdowns_from_never_losing capital (map profit ts)
               (0 + profit t)).
    - now rewrite length_map.
    - lra.
    - apply Forall_map. exact Hts. }
  rewrite Hdd. f_equal. f_equal.
  - apply series_min_zeros.
  - unfold _compute_drawdown_duration. cbn [length Nat.ltb Nat.leb].
    apply bool_mean_all_false. apply Forall_map.
    apply Forall_forall. intros d Hd. apply repeat_spec in Hd. subst d.
    unfold NP.ltb. now rewrite Rltb_false by lra.
  - rewrite recovery_time_counts_onsets.
    destruct (0 <? _)%nat; [| reflexivity].
    apply bool_mean_all_false, onsets_zeros.
Qed.

Lemma never_losing_has_no_drawdown_witness :
  compute_trade_drawdowns
    (__init__ [mk_trade long 10; mk_trade short 0; mk_trade long 3] 100)
  = Ok (mk_drawdown_stats (Fin 0) 0 0).
Proof.
  apply (never_losing_has_no_drawdown
           [mk_trade long 10; mk_trade short 0; mk_trade long 3] 100);
    [discriminate | lra |].
  repeat constructor; cbn; lra.
Defined.

Lemma bool_mean_bounds (l : list bool) :
  l <> [] -> 0 <= Series.bool_mean l <= 1.
Proof.
  intros Hne. unfold Series.bool_mean.
  assert (Hn : 0 < INR (length l)).
  { destruct l; [contradiction |]. apply lt_0_INR. cbn. lia. }
  assert (Hk : INR (length (filter (fun b => b) l)) <= INR (length l))
    by (apply le_INR, filter_length_le).
  pose proof (pos_INR (length (filter (fun b => b) l))) as Hk0.
  pose proof (Rinv_0_lt_compat _ Hn) as Hinv.
  unfold Rdiv. split; [nra |].
  apply Rmult_le_reg_r with (r := INR (length l)); [exact Hn |].
  rewrite Rmult_assoc, Rinv_l by lra. lra.
Qed.

Lemma guarded_bool_mean_bounds (l : list bool) :
  0 <= (if (0 <? length l)%nat then Series.bool_mean l else 0) <= 1.
Proof.
  destruct l as [| b l]; cbn [length Nat.ltb Nat.leb]; [lra |].
  apply bool_mean_bounds. discriminate.
Qed.

(** X10. Whenever there is at least one trade, the drawdown statistics are
    returned, and both [drawdown_duration] and [recovery_time] are
    fractions in [0, 1]; [recovery_time] is the fraction of index
    transitions at which the drawdown turns from non-negative to
    negative. *)
Theorem drawdown_fractions_in_unit_interval
    (trades : list trade) (capital : R) :
  trades <> [] ->
  exists (stats : drawdown_stats) (eq : list R),
    equity_curve (__init__ trades capital) = Some eq /\
    compute_trade_drawdowns (__init__ trades capital) = Ok stats /\
    0 <= dd_drawdown_duration stats <= 1 /\
    0 <= dd_recovery_time stats <= 1 /\
    dd_recovery_time stats
    = (if (0 <? length (DrawdownOnset.onsets (drawdown_series eq)))%nat
       then Series.bool_mean (DrawdownOnset.onsets (drawdown_series eq))
       else 0).
Proof.
  intros Hne. destruct trades as [| t ts]; [contradiction |].
  unfold compute_trade_drawdowns, __init__, _process_trades.
  cbn [StrategyRiskAnalyzer.trades equity_curve initial_capital getattr bind].
  do 2 eexists. split; [reflexivity |]. split; [reflexivity |].
  cbn [dd_drawdown_duration dd_recovery_time].
  split; [| split].
  - unfold _compute_drawdown_duration.
    rewrite <- (length_map (fun d => NP.ltb d (Fin 0))).
    apply guarded_bool_mean_bounds.
  - unfold _compute_recovery_time. apply guarded_bool_mean_bounds.
  - apply recovery_time_counts_onsets.
Qed.

Lemma drawdown_fractions_in_unit_interval_witness :
  exists stats : drawdown_stats,
    compute_trade_drawdowns
      (__init__ [mk_trade long 10; mk_trade long (-5)] 100) = Ok stats /\
    0 <= dd_drawdown_duration stats <= 1.
Proof.
  destruct (drawdown_fractions_in_unit_interval
              [mk_trade long 10; mk_trade long (-5)] 100)
    as (stats & eq & _ & E & Hd & _); [discriminate |].
  exists stats. split; assumption.
Defined.

Lemma cumsum_from_prefix_sums (l : list R) : forall acc : R,
  Series.cumsum_from acc l
  = map (fun i => acc + NP.sum (firstn (S i) l)) (seq 0 (length l)).
Proof.
  induction l as [| x l IH]; intros acc; [reflexivity |].
  cbn [Series.cumsum_from length seq map]. f_equal.
  - unfold NP.sum. cbn. lra.
  - rewrite IH, <- seq_shift, map_map. apply map_ext. intros i.
    unfold NP.sum. cbn [firstn fold_right]. lra.
Qed.

(** X11. On a non-empty trade list the constructor sets the equity curve
    to the capital plus the running total of the profits: one point per
    trade, the point of index [i] being the capital plus the first
    [i + 1] profits, and the last one the capital plus the total profit. *)
Theorem equity_curve_is_capital_plus_running_profit
    (trades : list trade) (capital : R) :
  trades <> [] ->
  let profits := map profit trades in
  exists eq : list R,
    equity_curve (__init__ trades capital) = Some eq /\
    eq = map (fun i => capital + NP.sum (firstn (S i) profits))
             (seq 0 (length trades)) /\
    length eq = length trades /\
    nth (length trades - 1) eq 0 = capital + NP.sum profits.
Proof.
  intros Hne. cbv zeta. destruct trades as [| t ts]; [contradiction |].
  unfold __init__, _process_trades.
  cbn [StrategyRiskAnalyzer.trades equity_curve initial_capital].
  eexists. split; [reflexivity |].
  assert (E : map (fun c => capital + c)
                  (Series.cumsum (map profit (t :: ts)))
              = map (fun i => capital
                              + NP.sum (firstn (S i) (map profit (t :: ts))))
                    (seq 0 (length (t :: ts)))).
  { unfold Series.cumsum. rewrite cumsum_from_prefix_sums, map_map.
    rewrite length_map. apply map_ext. intros i. lra. }
  rewrite E. split; [reflexivity |]. split.
  - now rewrite length_map, length_seq.
  - set (n := length (t :: ts)).
    assert (Hn : (0 < n)%nat) by (unfold n; cbn; lia).
    rewrite (nth_indep _ 0
               (capital + NP.sum (firstn (S 0) (map profit (t :: ts)))))
      by (rewrite length_map, length_seq; lia).
    rewrite (map_nth (fun i => capital
                               + NP.sum (firstn (S i) (map profit (t :: ts))))).
    rewrite seq_nth by lia. cbn [Nat.add].
    replace (S (n - 1)) with n by lia.
    rewrite firstn_all2 by (rewrite length_map; fold n; lia).
    reflexivity.
Qed.

Lemma equity_curve_is_capital_plus_running_profit_witness :
  exists eq : list R,
    equity_curve (__init__ [mk_trade long 10; mk_trade long (-5)] 100)
      = Some eq /\
    length eq = 2%nat.
Proof.
  destruct (equity_curve_is_capital_plus_running_profit
              [mk_trade long 10; mk_trade long (-5)] 100)
    as (eq & E & _ & Hl & _); [discriminate |].
  exists eq. split; assumption.
Defined.

End DrawdownsMore.

Section ReportAndMethods.

Import StrategyRiskAnalyzer.

Variable norm_ppf : R -> npfloat.

Lemma percentile_5_returns (a : list npfloat) :
  exists v, Series.percentile a (100 * (1 - 95 / 100)) = Ok v.
Proof.
  unfold Series.percentile. cbv zeta.
  rewrite !Rleb_true by lra. cbn [andb].
  destruct (Series.finite_values a) as [[| r rs] |]; now eexists.
Qed.

(** X12. [generate_risk_report] never returns a report.  Whatever the
    state of the instance, it raises [AttributeError]: for the attribute
    [returns] when no trade was given, and otherwise for the method
    [_compute_skew] that the class does not define. *)
Theorem risk_report_never_returns (self : t) :
  (returns self = None /\
   generate_risk_report norm_ppf self = Raise (AttributeError "returns"))
  \/ ((exists rets, returns self = Some rets) /\
      generate_risk_report norm_ppf self
      = Raise (AttributeError "_compute_skew")).
Proof.
  unfold generate_risk_report.
  change (compute_strategy_var norm_ppf self "historical" (95 / 100))
    with (_historical_var self (95 / 100)).
  unfold _historical_var.
  destruct (returns self) as [rets |] eqn:Hr; cbn [getattr bind].
  - right. split; [now exists rets |].
    destruct (percentile_5_returns rets) as (v & ->). reflexivity.
  - left. split; reflexivity.
Qed.

Lemma valid_method_not_invalid (self : t) (c : R) :
  _historical_var self c <> Raise (ValueError "Invalid VaR method") /\
  _parametric_var norm_ppf self c <> Raise (ValueError "Invalid VaR method") /\
  _cornish_fisher_var norm_ppf self c
    <> Raise (ValueError "Invalid VaR method").
Proof.
  unfold _historical_var, _parametric_var, _cornish_fisher_var,
    undefined_method, Series.percentile.
  destruct (returns self) as [rets |]; cbn [getattr bind];
    repeat split; try discriminate.
  destruct (_ && _); [| discriminate].
  destruct (Series.finite_values rets) as [[| r rs] |]; discriminate.
Qed.

(** X13. [compute_strategy_var] raises [ValueError("Invalid VaR method")]
    exactly when the method name is none of ['historical'], ['gaussian'],
    ['cornish-fisher'], whatever the trades and the confidence level. *)
Theorem invalid_method_exactly_when_unknown
    (self : t) (method : string) (c : R) :
  compute_strategy_var norm_ppf self method c
    = Raise (ValueError "Invalid VaR method")
  <-> (method <> "historical"%string /\ method <> "gaussian"%string
       /\ method <> "cornish-fisher"%string).
Proof.
  destruct (valid_method_not_invalid self c) as (Hh & Hg & Hc).
  unfold compute_strategy_var.
  destruct (String.eqb_spec method "historical") as [-> | N1].
  { split; [intros E; contradiction | intros (N & _); contradiction]. }
  destruct (String.eqb_spec method "gaussian") as [-> | N2].
  { split; [intros E; contradiction | intros (_ & N & _); contradiction]. }
  destruct (String.eqb_spec method "cornish-fisher") as [-> | N3].
  { split; [intros E; contradiction | intros (_ & _ & N); contradiction]. }
  split; [intros _; repeat split; assumption | reflexivity].
Qed.

End ReportAndMethods.

Lemma invalid_method_exactly_when_unknown_witness :
  StrategyRiskAnalyzer.compute_strategy_var (fun _ => NaN)
    (StrategyRiskAnalyzer.__init__ [] 100) "monte-carlo" (95 / 100)
  = Raise (ValueError "Invalid VaR method").
Proof.
  apply (invalid_method_exactly_when_unknown (fun _ => NaN)
           (StrategyRiskAnalyzer.__init__ [] 100) "monte-carlo" (95 / 100)).
  repeat split; discriminate.
Defined.

(* ================================================================== *)
(** * Further properties of the rolling-window backtest *)

Section BacktestPositions.

Import BondArbBacktest.

Lemma step_valid (thr : R) (pos : Z) (r : row) :
  valid_position pos ->
  valid_position (step thr pos r) /\ (pos * step thr pos r <> -1)%Z.
Proof.
  unfold valid_position, step.
  intros [-> | [-> | ->]]; cbn [Z.eqb Pos.eqb andb orb].
  - destruct (NP.gtb _ _); [split; [auto | lia] |].
    destruct (NP.ltb _ _); split; auto; lia.
  - destruct (NP.geb _ _); cbn [orb]; split; auto; lia.
  - destruct (NP.leb _ _); cbn [orb]; split; auto; lia.
Qed.

Lemma loop_valid (thr : R) (rows : list row) : forall (i : nat) (pos : Z),
  valid_position pos ->
  Forall valid_position (loop thr (S i) pos rows) /\
  no_reversal pos (loop thr (S i) pos rows).
Proof.
  induction rows as [| r rows IH]; intros i pos Hpos; cbn [loop Nat.eqb].
  - split; [constructor | exact I].
  - destruct (step_valid thr pos r Hpos) as [Hv Hn].
    destruct (IH (S i) _ Hv) as [Hall Hchain].
    split; [now constructor | now split].
Qed.

Lemma no_reversal_nth (ps : list Z) : forall (prev : Z) (k : nat),
  no_reversal prev ps -> (S k < length ps)%nat ->
  (nth k ps 0 * nth (S k) ps 0 <> -1)%Z.
Proof.
  induction ps as [| p ps IH]; intros prev k Hc Hk; [cbn in Hk; lia |].
  destruct Hc as [_ Hc]. destruct k as [| k].
  - destruct ps as [| q ps]; [cbn in Hk; lia |]. cbn [nth]. now destruct Hc.
  - cbn [nth length] in *. apply (IH p k Hc). lia.
Qed.

(** X14. [backtest] records one position per row; the first is 0, every
    position is -1, 0 or 1, and a long position is never followed at once
    by a short one or a short one by a long one: a reversal always passes
    through a flat row.  This holds for every frame, NaN entries
    included. *)
Theorem positions_well_formed (thr : R) (rows : list row) :
  length (f_position (backtest thr rows)) = length rows /\
  nth 0 (f_position (backtest thr rows)) 0%Z = 0%Z /\
  Forall valid_position (f_position (backtest thr rows)) /\
  forall k : nat,
    (S k < length rows)%nat ->
    (nth k (f_position (backtest thr rows)) 0
     * nth (S k) (f_position (backtest thr rows)) 0 <> -1)%Z.
Proof.
  unfold backtest. cbn [f_position]. unfold positions.
  split; [apply loop_length |].
  destruct rows as [| r0 rows].
  { repeat split; [constructor | cbn; intros; lia]. }
  cbn [loop Nat.eqb nth].
  destruct (loop_valid thr rows 0 0%Z) as [Hall Hchain];
    [left; reflexivity |].
  split; [reflexivity |]. split.
  - constructor; [left; reflexivity | exact Hall].
  - intros k Hk.
    apply (no_reversal_nth (0%Z :: loop thr 1 0 rows) 0%Z k).
    + split; [lia | exact Hchain].
    + cbn [length] in *. rewrite loop_length. exact Hk.
Qed.

Lemma positions_well_formed_witness :
  (nth 0 (f_position
            (backtest (3 / 2) [mk_row (Fin 0) (Fin 0) NaN;
                               mk_row (Fin 4) (Fin 1) (Fin 2)])) 0
   * nth 1 (f_position
              (backtest (3 / 2) [mk_row (Fin 0) (Fin 0) NaN;
                                 mk_row (Fin 4) (Fin 1) (Fin 2)])) 0
   <> -1)%Z.
Proof.
  apply (positions_well_formed (3 / 2)
           [mk_row (Fin 0) (Fin 0) NaN; mk_row (Fin 4) (Fin 1) (Fin 2)]).
  cbn. lia.
Defined.

End BacktestPositions.

Section FlatSpread.

Import BondArbBacktest.

Lemma Forall_firstn_keeps {A} (P : A -> Prop) (l : list A) : forall n : nat,
  Forall P l -> Forall P (firstn n l).
Proof.
  induction l as [| x l IH]; intros [| n] H; cbn [firstn]; try constructor.
  - now inversion H.
  - inversion H; subst. now apply IH.
Qed.

Lemma Forall_skipn_keeps {A} (P : A -> Prop) (l : list A) : forall n : nat,
  Forall P l -> Forall P (skipn n l).
Proof.
  induction l as [| x l IH]; intros [| n] H; cbn [skipn]; try assumption.
  inversion H; subst. now apply IH.
Qed.

Lemma rolling_window_keeps (P : R -> Prop) (w i : nat) (l : list R) :
  Forall P l -> Forall P (rolling_window w l i).
Proof.
  intros H. unfold rolling_window.
  now apply Forall_firstn_keeps, Forall_skipn_keeps.
Qed.

Lemma rolling_window_length (w i : nat) (l : list R) :
  (i < length l)%nat ->
  length (rolling_window w l i) = Nat.min (S i) w.
Proof.
  intros Hi. unfold rolling_window. rewrite length_firstn, length_skipn. lia.
Qed.

Lemma sqdev_sum_constant (c : R) (l : list R) :
  l <> [] -> Forall (eq c) l -> NP.sum (NP.sqdev l) = 0.
Proof.
  intros Hne Hc.
  rewrite (sum_constant 0 (NP.sqdev l)); [lra |].
  unfold NP.sqdev. rewrite (rmean_constant c l Hne Hc).
  apply Forall_map. eapply Forall_impl; [| exact Hc].
  intros y <-. cbn. lra.
Qed.

(** The rolling standard deviation of equal observations is NaN on a
    single observation and 0 on more. *)
Lemma std1_constant (c : R) (l : list R) :
  l <> [] -> Forall (eq c) l -> NP.std 1 l = NaN \/ NP.std 1 l = Fin 0.
Proof.
  intros Hne Hc. unfold NP.std, NP.var.
  pose proof (sqdev_sum_constant c l Hne Hc) as Hs.
  destruct l as [| x l]; [contradiction |]. rewrite Hs.
  destruct l as [| y l].
  - left. cbn [length Nat.sub INR]. unfold NP.div.
    rewrite Reqb_true by reflexivity. rewrite !Rltb_false by lra.
    reflexivity.
  - right. rewrite np_div_fin.
    + unfold NP.sqrt. replace (0 / INR (length (x :: y :: l) - 1)) with 0
        by (unfold Rdiv; lra).
      rewrite Rltb_false by lra. now rewrite sqrt_0.
    + apply Rgt_not_eq, lt_0_INR. cbn. lia.
Qed.

Lemma flat_row_keeps_flat (thr c : R) (sd : npfloat) :
  sd = NaN \/ sd = Fin 0 ->
  step thr 0 (mk_row (Fin c) (Fin c) sd) = 0%Z.
Proof.
  intros [-> | ->]; unfold step;
    cbn [spread rolling_mean rolling_std Z.eqb];
    unfold NP.gtb, NP.ltb, NP.sub, NP.add, NP.neg, NP.mul;
    rewrite ?Rltb_false by lra; reflexivity.
Qed.

Lemma loop_flat_rows (thr c : R) (rows : list row) : forall i : nat,
  Forall (fun r => exists sd, r = mk_row (Fin c) (Fin c) sd
                              /\ (sd = NaN \/ sd = Fin 0)) rows ->
  loop thr i 0 rows = repeat 0%Z (length rows).
Proof.
  induction rows as [| r rows IH]; intros i Hall; [reflexivity |].
  inversion Hall as [| ? ? (sd & -> & Hsd) Hrest]; subst.
  cbn [loop length repeat].
  destruct (i =? 0)%nat.
  - f_equal. now apply IH.
  - rewrite (flat_row_keeps_flat thr c sd Hsd). f_equal. now apply IH.
Qed.

(** X15. Two bonds that trade at the same price on every row never open a
    position.  The spread is 0 on every row, and so are its rolling mean
    and both bands: [load_data] succeeds for every window >= 1 and
    [backtest] stays flat on all rows, whatever the threshold. *)
Theorem equal_prices_never_trade
    (window : Z) (thr : R) (prices : list (R * R)) :
  (1 <= window)%Z ->
  Forall (fun p => fst p = snd p) prices ->
  exists rows,
    load_data window prices = Ok rows /\
    length rows = length prices /\
    f_position (backtest thr rows) = repeat 0%Z (length prices).
Proof.
  intros Hw Hc. unfold load_data.
  destruct (Z.ltb_spec window 0); [lia |].
  destruct (Z.eqb_spec window 0); [lia |].
  set (spreads := map (fun '(bond1_price, bond2_price) =>
                         bond1_price - bond2_price) prices).
  assert (Hs : Forall (eq 0) spreads).
  { unfold spreads. apply Forall_map. eapply Forall_impl; [| exact Hc].
    intros [b1 b2] Hb. cbn in Hb. subst b1. lra. }
  assert (Hlen : length spreads = length prices)
    by (unfold spreads; apply length_map).
  eexists. split; [reflexivity |].
  split; [now rewrite length_map, length_seq |].
  unfold backtest. cbn [f_position]. unfold positions.
  rewrite (loop_flat_rows thr 0).
  - now rewrite length_map, length_seq, Hlen.
  - apply Forall_map, Forall_forall. intros i Hi. apply in_seq in Hi.
    assert (Hwl : (0 < length (rolling_window (Z.to_nat window) spreads i))%nat)
      by (rewrite rolling_window_length; lia).
    assert (Hne : rolling_window (Z.to_nat window) spreads i <> [])
      by (intros E; rewrite E in Hwl; cbn in Hwl; lia).
    pose proof (rolling_window_keeps (eq 0) (Z.to_nat window) i spreads Hs)
      as Hwc.
    exists (NP.std 1 (rolling_window (Z.to_nat window) spreads i)).
    split; [| now apply (std1_constant 0)].
    rewrite np_mean_fin by exact Hne.
    rewrite (rmean_constant 0) by assumption.
    rewrite Forall_forall in Hs.
    rewrite <- (Hs (nth i spreads 0)) by (apply nth_In; lia).
    reflexivity.
Qed.

Lemma equal_prices_never_trade_witness :
  exists rows,
    load_data 20 [(3, 3); (5, 5); (4, 4)] = Ok rows /\
    f_position (backtest (3 / 2) rows) = repeat 0%Z 3.
Proof.
  destruct (equal_prices_never_trade 20 (3 / 2) [(3, 3); (5, 5); (4, 4)])
    as (rows & E & _ & Hp); [lia | repeat constructor |].
  exists rows. split; assumption.
Defined.

End FlatSpread.

Section WindowOfOne.

Import BondArbBacktest.

Lemma np_add_nan_r (a : npfloat) : NP.add a NaN = NaN.
Proof. destruct a; reflexivity. Qed.

Lemma nan_std_keeps_flat (thr : R) (r : row) :
  rolling_std r = NaN -> step thr 0 r = 0%Z.
Proof.
  intros Hsd. unfold step. rewrite Hsd. cbn [Z.eqb].
  unfold NP.sub. cbn [NP.mul NP.neg]. rewrite !np_add_nan_r.
  unfold NP.gtb, NP.ltb. destruct (spread r); reflexivity.
Qed.

Lemma loop_nan_std (thr : R) (rows : list row) : forall i : nat,
  Forall (fun r => rolling_std r = NaN) rows ->
  loop thr i 0 rows = repeat 0%Z (length rows).
Proof.
  induction rows as [| r rows IH]; intros i Hall; [reflexivity |].
  inversion Hall as [| ? ? Hr Hrest]; subst.
  cbn [loop length repeat].
  destruct (i =? 0)%nat.
  - f_equal. now apply IH.
  - rewrite (nan_std_keeps_flat thr r Hr). f_equal. now apply IH.
Qed.

Lemma std1_single (l : list R) : length l = 1%nat -> NP.std 1 l = NaN.
Proof.
  intros Hl. destruct l as [| x [| y l]]; try discriminate.
  unfold NP.std, NP.var, NP.sqdev, NP.rmean, NP.sum, NP.len.
  cbn [map fold_right length Nat.sub INR]. unfold NP.div.
  rewrite Reqb_true by reflexivity.
  assert (E : (x - (x + 0) / 1) * (x - (x + 0) / 1) + 0 = 0)
    by (unfold Rdiv; rewrite Rinv_1; ring).
  rewrite E, !Rltb_false by lra. reflexivity.
Qed.

(** X16. A window of one observation disables the strategy: every rolling
    standard deviation is NaN (the sample deviation of a single value), no
    comparison with the bands succeeds, and [backtest] stays flat on every
    row, whatever the prices and the threshold.  A window below 1 is
    rejected by [load_data] with [ValueError]. *)
Theorem window_of_one_never_trades (thr : R) (prices : list (R * R)) :
  (forall w : Z, (w < 1)%Z -> exists msg,
      load_data w prices = Raise (ValueError msg)) /\
  exists rows,
    load_data 1 prices = Ok rows /\
    Forall (fun r => rolling_std r = NaN) rows /\
    f_position (backtest thr rows) = repeat 0%Z (length prices).
Proof.
  split.
  - intros w Hw. unfold load_data.
    destruct (Z.ltb_spec w 0); [now eexists |].
    destruct (Z.eqb_spec w 0); [now eexists | lia].
  - unfold load_data. cbn [Z.ltb Z.eqb Z.compare].
    set (spreads := map (fun '(bond1_price, bond2_price) =>
                           bond1_price - bond2_price) prices).
    assert (Hlen : length spreads = length prices)
      by (unfold spreads; apply length_map).
    set (rows := map (fun i =>
                        let w := rolling_window (Z.to_nat 1) spreads i in
                        mk_row (Fin (nth i spreads 0)) (NP.mean w)
                               (NP.std 1 w))
                     (seq 0 (length spreads))).
    exists rows. split; [reflexivity |].
    assert (Hnan : Forall (fun r => rolling_std r = NaN) rows).
    { apply Forall_map, Forall_forall. intros i Hi. apply in_seq in Hi.
      cbn [rolling_std]. apply std1_single.
      rewrite rolling_window_length by lia.
      change (Z.to_nat 1) with 1%nat. lia. }
    split; [exact Hnan |].
    unfold backtest. cbn [f_position]. unfold positions.
    rewrite (loop_nan_std thr rows 0 Hnan).
    unfold rows. now rewrite length_map, length_seq, Hlen.
Qed.

Lemma window_of_one_never_trades_witness :
  exists msg, load_data 0 [(3, 1); (9, 2)] = Raise (ValueError msg).
Proof.
  apply (proj1 (window_of_one_never_trades (3 / 2) [(3, 1); (9, 2)]) 0%Z).
  lia.
Defined.

End WindowOfOne.


(* ================================================================== *)
(** * Properties of the other indicators *)

Section BayesianZScoreProps.

Import BayesianZScore.

(** X17. [compute_bayesian_z_score] raises [ValueError] on an empty
    window, and on a non-empty one [ZeroDivisionError] when the
    observation variance is zero or, failing that, when the prior variance
    is zero. *)
Theorem bayesian_z_score_errors
    (window_data : list R) (x prior_mean prior_variance obs_variance : R) :
  compute_bayesian_z_score [] x prior_mean prior_variance obs_variance
    = Raise (ValueError "window_data must contain at least one element") /\
  (window_data <> [] ->
   compute_bayesian_z_score window_data x prior_mean prior_variance 0
     = Raise ZeroDivisionError) /\
  (window_data <> [] -> obs_variance <> 0 ->
   compute_bayesian_z_score window_data x prior_mean 0 obs_variance
     = Raise ZeroDivisionError).
Proof.
  split; [reflexivity |]. split.
  - intros Hne. unfold compute_bayesian_z_score, Indicators.py_truediv.
    destruct window_data; [contradiction |]. cbn [length Nat.eqb].
    rewrite Reqb_true by reflexivity. reflexivity.
  - intros Hne Ho. unfold compute_bayesian_z_score, Indicators.py_truediv.
    destruct window_data; [contradiction |]. cbn [length Nat.eqb].
    rewrite (Reqb_false obs_variance 0) by exact Ho. cbn [bind].
    rewrite Reqb_true by reflexivity. reflexivity.
Qed.

Lemma bayesian_z_score_errors_witness :
  compute_bayesian_z_score [1; 2] 3 0 1 0 = Raise ZeroDivisionError.
Proof.
  apply (proj1 (proj2 (bayesian_z_score_errors [1; 2] 3 0 1 0))).
  discriminate.
Defined.

(** The value of [compute_bayesian_z_score] on a non-empty window and
    positive variances. *)
Lemma bayesian_z_score_value
    (l : list R) (x m0 t w : R) :
  l <> [] -> 0 < t -> 0 < w ->
  let A := INR (length l) / w in
  let B := 1 / t in
  let mu := 1 / (A + B) * (INR (length l) * NP.rmean l / w + m0 / t) in
  let s := sqrt (1 / (A + B)) in
  compute_bayesian_z_score l x m0 t w
    = Ok (Fin mu, Fin s, Fin ((x + - mu) / s)) /\
  0 < A /\ 0 < B /\ 0 < s.
Proof.
  intros Hne Ht Hw. cbv zeta.
  assert (Hn : 0 < INR (length l)).
  { destruct l; [contradiction |]. apply lt_0_INR. cbn. lia. }
  assert (HA : 0 < INR (length l) / w) by (apply Rdiv_lt_0_compat; lra).
  assert (HB : 0 < 1 / t) by (apply Rdiv_lt_0_compat; lra).
  assert (HS : 0 < 1 / (INR (length l) / w + 1 / t))
    by (apply Rdiv_lt_0_compat; lra).
  assert (Hs : 0 < sqrt (1 / (INR (length l) / w + 1 / t)))
    by (apply sqrt_lt_R0; exact HS).
  repeat split; try assumption.
  unfold compute_bayesian_z_score, Indicators.py_truediv.
  destruct (Nat.eqb_spec (length l) 0) as [E0 | _].
  { rewrite E0 in Hn. cbn in Hn. lra. }
  rewrite (Reqb_false w 0), (Reqb_false t 0) by lra. cbn [bind].
  rewrite Reqb_false by lra. cbn [bind].
  rewrite np_mean_fin by exact Hne. cbn [NP.mul].
  rewrite np_div_fin by lra. cbn [NP.add NP.mul].
  unfold NP.sqrt. rewrite Rltb_false by lra.
  unfold compute_z_score_np, NP.eqb. rewrite Reqb_false by lra.
  unfold NP.sub, NP.neg. cbn [NP.add].
  rewrite np_div_fin by lra. reflexivity.
Qed.

(** X18. On a non-empty window with positive prior and observation
    variances, [compute_bayesian_z_score] returns without raising; the
    posterior standard deviation it returns is not negative, and the
    z-score has the sign of the distance of the current value from the
    posterior mean: not negative when the value is at or above that mean,
    not positive when it is at or below it. *)
Theorem bayesian_z_score_sign
    (window_data : list R) (x prior_mean prior_variance obs_variance : R) :
  window_data <> [] -> 0 < prior_variance -> 0 < obs_variance ->
  exists mu s z : npfloat,
    compute_bayesian_z_score window_data x prior_mean prior_variance
                             obs_variance
      = Ok (mu, s, z) /\
    NP.leb (Fin 0) s = true /\
    (NP.leb mu (Fin x) = true -> NP.leb (Fin 0) z = true) /\
    (NP.leb (Fin x) mu = true -> NP.leb z (Fin 0) = true).
Proof.
  intros Hne Ht Hw.
  destruct (bayesian_z_score_value window_data x prior_mean prior_variance
              obs_variance Hne Ht Hw) as (E & HA & HB & Hs).
  cbv zeta in E.
  set (A := INR (length window_data) / obs_variance) in *.
  set (B := 1 / prior_variance) in *.
  set (mu := 1 / (A + B)
             * (INR (length window_data) * NP.rmean window_data
                / obs_variance + prior_mean / prior_variance)) in *.
  set (sd := sqrt (1 / (A + B))) in *.
  pose proof (Rinv_0_lt_compat sd Hs) as Hinv.
  exists (Fin mu), (Fin sd), (Fin ((x + - mu) / sd)).
  split; [exact E |].
  change (NP.leb (Fin 0) (Fin sd)) with (Rltb 0 sd || Reqb 0 sd).
  change (NP.leb (Fin mu) (Fin x)) with (Rltb mu x || Reqb mu x).
  change (NP.leb (Fin x) (Fin mu)) with (Rltb x mu || Reqb x mu).
  change (NP.leb (Fin 0) (Fin ((x + - mu) / sd)))
    with (Rltb 0 ((x + - mu) / sd) || Reqb 0 ((x + - mu) / sd)).
  change (NP.leb (Fin ((x + - mu) / sd)) (Fin 0))
    with (Rltb ((x + - mu) / sd) 0 || Reqb ((x + - mu) / sd) 0).
  rewrite !leb_real_spec. unfold Rdiv.
  split; [lra |]. split; intros Hle; nra.
Qed.

Lemma bayesian_z_score_sign_witness :
  exists mu s z : npfloat,
    compute_bayesian_z_score [1; 2; 3] 4 0 1 (1 / 100) = Ok (mu, s, z) /\
    NP.leb (Fin 0) s = true.
Proof.
  destruct (bayesian_z_score_sign [1; 2; 3] 4 0 1 (1 / 100))
    as (mu & s & z & E & Hs & _); [discriminate | lra | lra |].
  exists mu, s, z. split; assumption.
Defined.

End BayesianZScoreProps.

Section UpdateIsBayesianZScore.

Import BayesianBondArbStrategy BayesianZScore.

(** X19. The live update is the indicator applied to data-driven
    arguments.  Past warm-up, when the prior segment has positive variance
    [t] and the floored window variance is [w], [update_parameters]
    returns the numbers that [compute_bayesian_z_score] returns for the
    window data, with the prior mean and [t] as prior and [w] as
    observation variance; only the order of the tuple differs
    ([(z, mean, std)] against [(mean, std, z)]). *)
Theorem update_is_bayesian_z_score
    (W P : Z) (pos : option Z) (h : list R) (x t w : R) :
  (2 <= W)%Z -> (0 < P)%Z ->
  (W + 2 <= Z.of_nat (length (h ++ [x])))%Z ->
  let self := mk W P pos (h ++ [x]) in
  NP.var 0 (_get_prior_data self) = Fin t -> 0 < t ->
  NP.py_max (NP.var 1 (_get_window_data self)) (Fin (1 / 10 ^ 8)) = Fin w ->
  exists mu s z : R,
    compute_bayesian_z_score (_get_window_data self) x
      (NP.rmean (_get_prior_data self)) t w
      = Ok (Fin mu, Fin s, Fin z) /\
    snd (update_parameters (mk W P pos h) x) = Estimate (Fin z) (Fin mu) (Fin s).
Proof.
  intros HW HP Hn. cbv zeta.
  rewrite prior_data_segment, window_data_segment by lia.
  intros Ht Htpos Hw.
  set (prior := BayesianEstimator.prior_segment W P (h ++ [x])) in *.
  set (window := BayesianEstimator.window_segment W (h ++ [x])) in *.
  assert (Hwlen : (2 <= length window)%nat).
  { unfold window, BayesianEstimator.window_segment.
    rewrite length_segment. lia. }
  assert (Hwne : window <> [])
    by (intros E; rewrite E in Hwlen; cbn in Hwlen; lia).
  assert (Hpne : prior <> []).
  { intros E. rewrite E in Ht. discriminate. }
  assert (Hwpos : 0 < w).
  { destruct (window_var_floored window Hwlen) as (w' & Hw' & Hle).
    change BayesianEstimator.epsilon with (1 / 10 ^ 8) in Hw'.
    rewrite Hw in Hw'. injection Hw' as ->.
    pose proof epsilon_pos. lra. }
  destruct (bayesian_z_score_value window x (NP.rmean prior) t w
              Hwne Htpos Hwpos) as (E & HA & HB & Hs).
  cbv zeta in E.
  assert (HlenW : INR (length window) = IZR W)
    by (apply (window_segment_len W (h ++ [x])); lia).
  rewrite HlenW in *.
  do 3 eexists. split; [exact E |].
  rewrite update_parameters_refines by lia.
  unfold update_by_segments, snd.
  destruct (Z.ltb_spec (Z.of_nat (length (h ++ [x]))) (W + 2)); [lia |].
  fold prior window.
  change BayesianEstimator.epsilon with (1 / 10 ^ 8).
  rewrite Ht, Hw, (np_mean_fin prior Hpne), (np_mean_fin window Hwne).
  rewrite !np_div_fin by lra. cbn [NP.add NP.mul].
  rewrite !np_div_fin by lra. cbn [NP.add NP.mul].
  unfold NP.sqrt. rewrite Rltb_false
    by (apply Rlt_le, Rdiv_lt_0_compat; lra).
  unfold NP.sub, NP.neg. cbn [NP.add].
  rewrite np_div_fin by lra. reflexivity.
Qed.

Lemma update_is_bayesian_z_score_witness :
  exists mu s z : R,
    compute_bayesian_z_score [2; 3] 3 (NP.rmean [0; 1]) (1 / 4) (1 / 2)
      = Ok (Fin mu, Fin s, Fin z) /\
    snd (update_parameters (mk 2 2 None [0; 1; 2]) 3)
      = Estimate (Fin z) (Fin mu) (Fin s).
Proof.
  apply (update_is_bayesian_z_score 2 2 None [0; 1; 2] 3 (1 / 4) (1 / 2));
    [lia | lia | cbn; lia | | lra |].
  - change (_get_prior_data (mk 2 2 None ([0; 1; 2] ++ [3]))) with [0; 1].
    np_eval; f_equal; lra.
  - change (_get_window_data (mk 2 2 None ([0; 1; 2] ++ [3]))) with [2; 3].
    np_eval; f_equal; lra.
Defined.

End UpdateIsBayesianZScore.

Section MovingAverageProps.

Import MovingAverages.

Lemma ewm_from_length (alpha : R) (l : list R) : forall prev : R,
  length (ewm_from alpha prev l) = length l.
Proof.
  induction l as [| x l IH]; intros prev; cbn [ewm_from length];
    [reflexivity | now rewrite IH].
Qed.

(** An observation equal to the running average leaves it unchanged. *)
Lemma ewm_from_constant (alpha c : R) (l : list R) :
  Forall (eq c) l -> ewm_from alpha c l = l.
Proof.
  induction 1 as [| x l <- _ IH]; [reflexivity |].
  cbn [ewm_from]. rewrite Reqb_true by reflexivity. now rewrite IH.
Qed.

(** X20. A span below 1 raises [ValueError].  For a span of at least 1
    the exponential moving average has one value per observation and
    starts at the first observation; on a series whose observations are
    all equal it returns that series unchanged, every average being
    exactly the common value. *)
Theorem exponential_moving_average_constant
    (series : list R) (window c : R) :
  (window < 1 ->
   exponential_moving_average series window
   = Raise (ValueError "span must satisfy: span >= 1")) /\
  (1 <= window ->
   exists ys,
     exponential_moving_average series window = Ok ys /\
     length ys = length series /\
     hd_error ys = hd_error series /\
     (Forall (eq c) series -> ys = series)).
Proof.
  unfold exponential_moving_average. split.
  - intros Hw. now rewrite Rltb_true.
  - intros Hw. rewrite Rltb_false by lra.
    destruct series as [| x l].
    + exists []. repeat split.
    + eexists. split; [reflexivity |]. cbn [length hd_error].
      split; [now rewrite ewm_from_length |]. split; [reflexivity |].
      intros Hall. inversion Hall as [| ? ? Hx Hl]; subst.
      now rewrite (ewm_from_constant _ x l Hl).
Qed.

Lemma exponential_moving_average_constant_witness :
  exists ys,
    exponential_moving_average [3; 3; 3] 10 = Ok ys /\ ys = [3; 3; 3].
Proof.
  destruct (proj2 (exponential_moving_average_constant [3; 3; 3] 10 3))
    as (ys & E & _ & _ & Hc); [lra |].
  exists ys. split; [exact E |]. apply Hc. repeat constructor.
Defined.

Lemma map_combine_seq {A B} (f : nat -> A) (g : nat * A -> B) (s : list nat) :
  map g (combine s (map f s)) = map (fun i => g (i, f i)) s.
Proof.
  induction s as [| i s IH]; [reflexivity |].
  cbn [map combine]. now rewrite IH.
Qed.

(** X21. [moving_average] and [rolling_std] agree with the rolling columns
    that [load_data] builds for the backtest, except during the first
    [window - 1] rows: there the indicators are NaN (pandas' default
    [min_periods = window]), while [load_data] already averages the rows
    seen so far ([min_periods = 1]). *)
Theorem indicators_match_backtest_columns
    (window : Z) (prices : list (R * R)) :
  (1 <= window)%Z ->
  let spreads := map (fun p => fst p - snd p) prices in
  exists (rows : list BondArbBacktest.row) (ma sd : list npfloat),
    BondArbBacktest.load_data window prices = Ok rows /\
    moving_average spreads window = Ok ma /\
    rolling_std spreads window = Ok sd /\
    ma = map (fun '(i, r) =>
                if (Z.of_nat (S i) <? window)%Z then NaN
                else BondArbBacktest.rolling_mean r)
             (combine (seq 0 (length rows)) rows) /\
    sd = map (fun '(i, r) =>
                if (Z.of_nat (S i) <? window)%Z then NaN
                else BondArbBacktest.rolling_std r)
             (combine (seq 0 (length rows)) rows) /\
    length rows = length prices.
Proof.
  intros Hw. cbv zeta.
  unfold BondArbBacktest.load_data, moving_average, rolling_std, rolling.
  destruct (Z.ltb_spec window 0); [lia |].
  destruct (Z.eqb_spec window 0); [lia |].
  assert (Hsp : map (fun '(bond1_price, bond2_price) =>
                       bond1_price - bond2_price) prices
                = map (fun p => fst p - snd p) prices).
  { apply map_ext. now intros [b1 b2]. }
  rewrite Hsp.
  set (spreads := map (fun p => fst p - snd p) prices).
  do 3 eexists.
  split; [reflexivity |]. split; [reflexivity |]. split; [reflexivity |].
  rewrite !length_map, !length_seq.
  split; [| split].
  - now rewrite map_combine_seq.
  - now rewrite map_combine_seq.
  - unfold spreads. now rewrite length_map.
Qed.

Lemma indicators_match_backtest_columns_witness :
  exists (rows : list BondArbBacktest.row) (ma : list npfloat),
    BondArbBacktest.load_data 2 [(3, 1); (5, 2); (4, 4)] = Ok rows /\
    moving_average (map (fun p => fst p - snd p) [(3, 1); (5, 2); (4, 4)]) 2
      = Ok ma /\
    length rows = 3%nat.
Proof.
  destruct (indicators_match_backtest_columns 2 [(3, 1); (5, 2); (4, 4)])
    as (rows & ma & sd & E1 & E2 & _ & _ & _ & Hl); [lia |].
  exists rows, ma. repeat split; assumption.
Defined.

End MovingAverageProps.

(* ================================================================== *)
(** * Properties of the simulator configuration *)

Section OUJSimulatorProps.

Import OUJSimulator.

(** X22. On numbers, [_validate_config] accepts a configuration exactly
    when [theta > 0], [base_sigma > 0] and [0 <= jump_intensity <= 1]; the
    defaults of [_load_config] are accepted, and a non-positive [theta] is
    reported first, whatever the other entries are.  The tests are
    written as rejections, so a NaN [theta] or [base_sigma] passes them,
    while a NaN [jump_intensity] is rejected. *)
Theorem validate_config_accepts_exactly (t s j : R) :
  (_validate_config (Fin t) (Fin s) (Fin j) = Ok tt
   <-> 0 < t /\ 0 < s /\ 0 <= j <= 1) /\
  _validate_config (Fin (theta default_process))
                   (Fin (base_sigma default_process))
                   (Fin (jump_intensity default_process)) = Ok tt /\
  (t <= 0 ->
   forall s' j' : npfloat,
     _validate_config (Fin t) s' j'
     = Raise (ValueError "Mean reversion speed (theta) must be positive")) /\
  (0 <= j <= 1 -> _validate_config NaN NaN (Fin j) = Ok tt) /\
  (forall t' s' : npfloat, _validate_config t' s' NaN <> Ok tt).
Proof.
  unfold _validate_config.
  change (NP.leb (Fin t) (Fin 0)) with (Rltb t 0 || Reqb t 0).
  change (NP.leb (Fin s) (Fin 0)) with (Rltb s 0 || Reqb s 0).
  change (NP.leb (Fin 0) (Fin j)) with (Rltb 0 j || Reqb 0 j).
  change (NP.leb (Fin j) (Fin 1)) with (Rltb j 1 || Reqb j 1).
  split; [| split; [| split; [| split]]].
  - unfold Rltb, Reqb.
    destruct (Rlt_dec t 0), (Req_dec_T t 0), (Rlt_dec s 0), (Req_dec_T s 0),
             (Rlt_dec 0 j), (Req_dec_T 0 j), (Rlt_dec j 1), (Req_dec_T j 1);
      cbn [andb orb negb]; split; intros H;
      try discriminate; try reflexivity; try lra;
      repeat split; try lra.
  - cbn [theta base_sigma jump_intensity default_process].
    change (NP.leb (Fin (1 / 10)) (Fin 0))
      with (Rltb (1 / 10) 0 || Reqb (1 / 10) 0).
    change (NP.leb (Fin 0) (Fin (2 / 100)))
      with (Rltb 0 (2 / 100) || Reqb 0 (2 / 100)).
    change (NP.leb (Fin (2 / 100)) (Fin 1))
      with (Rltb (2 / 100) 1 || Reqb (2 / 100) 1).
    rewrite !(Rltb_false (1 / 10) 0), !(Reqb_false (1 / 10) 0) by lra.
    rewrite (Rltb_true 0 (2 / 100)), (Rltb_true (2 / 100) 1) by lra.
    reflexivity.
  - intros Ht s' j'.
    assert (E : Rltb t 0 || Reqb t 0 = true) by (apply leb_real_spec; lra).
    now rewrite E.
  - intros Hj.
    assert (E0 : Rltb 0 j || Reqb 0 j = true) by (apply leb_real_spec; lra).
    assert (E1 : Rltb j 1 || Reqb j 1 = true) by (apply leb_real_spec; lra).
    cbn [NP.leb NP.ltb NP.eqb orb].
    change (NP.leb (Fin 0) (Fin j)) with (Rltb 0 j || Reqb 0 j).
    change (NP.leb (Fin j) (Fin 1)) with (Rltb j 1 || Reqb j 1).
    now rewrite E0, E1.
  - intros t' s'.
    destruct (NP.leb t' (Fin 0)); [discriminate |].
    destruct (NP.leb s' (Fin 0)); discriminate.
Qed.

Lemma validate_config_accepts_exactly_witness :
  _validate_config (Fin 0) (Fin 1) (Fin (1 / 2))
  = Raise (ValueError "Mean reversion speed (theta) must be positive").
Proof.
  apply (proj1 (proj2 (proj2 (validate_config_accepts_exactly
                                0 1 (1 / 2))))).
  lra.
Defined.

Lemma scale_slice_length (sigma : list R) (r : regime) :
  length (scale_slice sigma r) = length sigma.
Proof.
  unfold scale_slice. rewrite length_map, length_combine, length_seq. lia.
Qed.

Lemma scale_slice_nth (sigma : list R) (r : regime) (i : nat) :
  (i < length sigma)%nat ->
  nth i (scale_slice sigma r) 0
  = if in_regime (length sigma) r i
    then nth i sigma 0 * sigma_multiplier r else nth i sigma 0.
Proof.
  intros Hi. unfold scale_slice, in_regime.
  set (g := fun '(i, x) =>
              if ((Py.clamp_index (Z.of_nat (length sigma)) (start r)
                   <=? Z.of_nat i)
                  && (Z.of_nat i
                      <? Py.clamp_index (Z.of_nat (length sigma)) (stop r)))%Z
              then x * sigma_multiplier r else x).
  rewrite (nth_indep _ 0 (g (0%nat, 0)))
    by (rewrite length_map, length_combine, length_seq; lia).
  rewrite (map_nth g), combine_nth by (now rewrite length_seq).
  rewrite seq_nth by exact Hi. reflexivity.
Qed.

Lemma fold_scale_slice (rs : list regime) : forall (sigma : list R),
  length (fold_left scale_slice rs sigma) = length sigma /\
  forall i : nat,
    (i < length sigma)%nat ->
    nth i (fold_left scale_slice rs sigma) 0
    = fold_left (fun acc r =>
                   if in_regime (length sigma) r i
                   then acc * sigma_multiplier r else acc)
                rs (nth i sigma 0).
Proof.
  induction rs as [| r rs IH]; intros sigma; cbn [fold_left].
  - split; [reflexivity | reflexivity].
  - destruct (IH (scale_slice sigma r)) as [Hlen Hnth].
    rewrite scale_slice_length in *. split; [exact Hlen |].
    intros i Hi. rewrite (Hnth i Hi), scale_slice_nth by exact Hi.
    reflexivity.
Qed.

(** X23. The volatility schedule of [simulate].  For [T > 0] it has [T]
    entries, and the entry of index [i] is [base_sigma] times the
    multipliers of all the regimes whose slice [start:end] contains [i],
    so overlapping regimes compound; for [T <= 0] [simulate] fails before
    the schedule exists.  With the default configuration the schedule is
    0.2 on the indices 500..1499 and 0.1 elsewhere. *)
Theorem regime_volatility_schedule (p : process_config) :
  ((T p <= 0)%Z -> regime_volatility p = None) /\
  ((0 < T p)%Z ->
   exists sigma,
     regime_volatility p = Some sigma /\
     length sigma = Z.to_nat (T p) /\
     forall i : nat,
       (i < Z.to_nat (T p))%nat ->
       nth i sigma 0
       = fold_left (fun acc r =>
                      if in_regime (Z.to_nat (T p)) r i
                      then acc * sigma_multiplier r else acc)
                   (regimes p) (base_sigma p)) /\
  (forall i : nat,
     (i < 2000)%nat ->
     exists sigma,
       regime_volatility default_process = Some sigma /\
       nth i sigma 0
       = if ((500 <=? i) && (i <? 1500))%nat then 1 / 10 * 2 else 1 / 10).
Proof.
  assert (Hgen : forall q : process_config,
             (0 < T q)%Z ->
             exists sigma,
               regime_volatility q = Some sigma /\
               length sigma = Z.to_nat (T q) /\
               forall i : nat,
                 (i < Z.to_nat (T q))%nat ->
                 nth i sigma 0
                 = fold_left (fun acc r =>
                                if in_regime (Z.to_nat (T q)) r i
                                then acc * sigma_multiplier r else acc)
                             (regimes q) (base_sigma q)).
  { intros q HT. unfold regime_volatility.
    destruct (Z.leb_spec (T q) 0); [lia |].
    eexists. split; [reflexivity |].
    destruct (fold_scale_slice (regimes q)
                (repeat (base_sigma q) (Z.to_nat (T q)))) as [Hlen Hnth].
    rewrite repeat_length in *. split; [exact Hlen |].
    intros i Hi. rewrite (Hnth i Hi), nth_repeat_lt by exact Hi.
    reflexivity. }
  split; [| split].
  - intros HT. unfold regime_volatility.
    destruct (Z.leb_spec (T p) 0); [reflexivity | lia].
  - apply Hgen.
  - intros i Hi.
    destruct (Hgen default_process) as (sigma & E & _ & Hnth);
      [cbn; lia |].
    exists sigma. split; [exact E |].
    change (Z.to_nat (T default_process)) with 2000%nat in Hnth.
    rewrite (Hnth i Hi).
    cbn [regimes default_process fold_left base_sigma sigma_multiplier].
    unfold in_regime, Py.clamp_index. cbn [start stop].
    change (500 <? 0)%Z with false. change (1500 <? 0)%Z with false.
    cbn iota.
    replace (Z.max 0 (Z.min (Z.of_nat 2000) 500)) with 500%Z by lia.
    replace (Z.max 0 (Z.min (Z.of_nat 2000) 1500)) with 1500%Z by lia.
    destruct (Z.leb_spec 500 (Z.of_nat i)), (Z.ltb_spec (Z.of_nat i) 1500),
             (Nat.leb_spec 500 i), (Nat.ltb_spec i 1500);
      cbn [andb]; try reflexivity; lia.
Qed.

Lemma regime_volatility_schedule_witness :
  regime_volatility (mk_process 0 1 1 0 []) = None.
Proof.
  apply (proj1 (regime_volatility_schedule (mk_process 0 1 1 0 []))).
  cbn. lia.
Defined.

End OUJSimulatorProps.

(* ================================================================== *)
(** * Properties of the performance summary *)

Section PerformanceProps.

Import BondArbBacktest Performance.

Lemma pnl_no_cost_finite (ps : list Z) : forall (ss : list R) (p : Z) (s : R),
  exists qs, pnl_no_cost p s ps ss = map Fin qs.
Proof.
  induction ps as [| p1 ps IH]; intros [| s1 ss] p s;
    try (exists []; reflexivity).
  destruct (IH ss p1 s1) as (qs & E).
  exists (IZR p * (s1 - s) :: qs). cbn [pnl_no_cost map]. now rewrite E.
Qed.

Lemma spreads_are_finite (rows : list row) :
  Forall (fun r => exists s, spread r = Fin s) rows ->
  map spread rows = map Fin (map finite_spread rows).
Proof.
  induction 1 as [| r rows (s & Hs) _ IH]; [reflexivity |].
  cbn [map]. unfold finite_spread at 1. rewrite Hs, IH. reflexivity.
Qed.

Lemma pnl_no_cost_length (ps : list Z) : forall (ss : list R) (p : Z) (s : R),
  length ps = length ss -> length (pnl_no_cost p s ps ss) = length ps.
Proof.
  induction ps as [| p1 ps IH]; intros [| s1 ss] p s Hlen;
    try reflexivity; try discriminate.
  cbn [pnl_no_cost length] in *. f_equal. apply IH. now injection Hlen.
Qed.

(** On finite spreads the pnl column holds finite numbers. *)
Lemma backtest_pnl_finite (thr : R) (rows : list row) :
  Forall (fun r => exists s, spread r = Fin s) rows ->
  exists qs, f_pnl (backtest thr rows) = map Fin qs /\
             length qs = length rows.
Proof.
  intros Hfin. unfold backtest. cbn [f_pnl].
  rewrite (spreads_are_finite rows Hfin).
  destruct rows as [| r0 rows]; [exists []; split; reflexivity |].
  assert (Hpos : positions thr (r0 :: rows)
                 = 0%Z :: loop thr 1 0%Z rows) by reflexivity.
  rewrite Hpos. unfold shift1, sdiff.
  cbn [length map firstn combine fillna0 Series.is_nan].
  rewrite length_map.
  pose proof (pnl_columns (loop thr 1 0 rows) (map finite_spread rows)
                          0%Z (finite_spread r0)) as Hp.
  unfold fillna0 in *. rewrite Hp by (now rewrite loop_length, length_map).
  destruct (pnl_no_cost_finite (loop thr 1 0 rows) (map finite_spread rows)
              0%Z (finite_spread r0)) as (qs & E).
  exists (0 * 0 :: qs). split.
  - rewrite E. reflexivity.
  - cbn [length]. f_equal.
    apply (f_equal (@length npfloat)) in E. rewrite length_map in E.
    rewrite <- E, pnl_no_cost_length by (now rewrite loop_length, length_map).
    apply loop_length.
Qed.

Lemma fcumsum_finite (qs : list R) : forall acc : R,
  fcumsum_from (Fin acc) (map Fin qs)
  = map Fin (Series.cumsum_from acc qs).
Proof.
  induction qs as [| q qs IH]; intros acc; [reflexivity |].
  cbn [map fcumsum_from Series.is_nan Series.cumsum_from NP.add].
  now rewrite IH.
Qed.

Lemma last_cumsum_from (qs : list R) : forall (acc : R) (d : npfloat),
  qs <> [] ->
  last (map Fin (Series.cumsum_from acc qs)) d = Fin (acc + NP.sum qs).
Proof.
  induction qs as [| q qs IH]; intros acc d Hne; [contradiction |].
  destruct qs as [| q2 qs].
  - cbn. f_equal. lra.
  - change (Series.cumsum_from acc (q :: q2 :: qs))
      with ((acc + q) :: Series.cumsum_from (acc + q) (q2 :: qs)).
    cbn [map]. change (last (?a :: map Fin ?l) d) with (last (a :: map Fin l) d).
    assert (Hl : forall (a : npfloat) (l : list npfloat),
               l <> [] -> last (a :: l) d = last l d).
    { intros a [| b l] H; [contradiction | reflexivity]. }
    rewrite Hl by discriminate.
    rewrite (IH (acc + q) d) by discriminate.
    f_equal. unfold NP.sum. cbn [fold_right]. lra.
Qed.

Lemma cummax_gap_nonnegative (cs : list R) : forall a : R,
  Forall finite_nonnegative
    (map (fun '(m, c) => NP.sub m c)
         (combine (fcummax_from (Some (Fin a)) (map Fin cs)) (map Fin cs))).
Proof.
  induction cs as [| c cs IH]; intros a;
    cbn [map fcummax_from Series.is_nan combine]; [constructor |].
  change (NP.ltb (Fin a) (Fin c)) with (Rltb a c). unfold Rltb.
  destruct (Rlt_dec a c) as [Hlt | Hge]; cbn [map combine].
  - constructor; [| apply IH].
    exists (c + - c). split; [reflexivity | lra].
  - constructor; [| apply IH].
    exists (a + - c). split; [reflexivity | lra].
Qed.

Lemma smax_nonnegative (l : list npfloat) :
  l <> [] -> Forall finite_nonnegative l -> finite_nonnegative (smax l).
Proof.
  intros Hne Hl. unfold smax.
  assert (Hd : Series.dropna l = l).
  { clear Hne. induction Hl as [| d l (v & -> & _) _ IH]; [reflexivity |].
    unfold Series.dropna in *. cbn [filter Series.is_nan negb].
    now rewrite IH. }
  rewrite Hd. destruct l as [| a l]; [contradiction |].
  inversion Hl as [| ? ? Ha Hl']; subst. clear Hl Hd Hne.
  revert a Ha. induction l as [| x l IH]; intros a Ha; cbn [fold_left];
    [exact Ha |].
  inversion Hl' as [| ? ? Hx Hl'']; subst.
  apply IH; [exact Hl'' |]. destruct (NP.ltb a x); assumption.
Qed.

(** X24. [performance] after [backtest] on a non-empty frame with finite
    spreads returns its metrics: the total PnL is the sum of the step
    pnls, and the maximum drawdown is a finite number >= 0.  On an empty
    frame [performance] fails at [iloc[-1]]. *)
Theorem performance_after_backtest (thr : R) (rows : list row) :
  performance (backtest thr []) = None /\
  (rows <> [] ->
   Forall (fun r => exists s, spread r = Fin s) rows ->
   exists (m : metrics) (qs : list R) (d : R),
     performance (backtest thr rows) = Some m /\
     f_pnl (backtest thr rows) = map Fin qs /\
     total_pnl m = Fin (0 + NP.sum qs) /\
     maximum_drawdown m = Fin d /\ 0 <= d).
Proof.
  split; [reflexivity |].
  intros Hne Hfin.
  destruct (backtest_pnl_finite thr rows Hfin) as (qs & Hq & Hlen).
  assert (Hqne : qs <> []).
  { intros E. rewrite E in Hlen. destruct rows; [contradiction |].
    cbn in Hlen. lia. }
  assert (Hcum : f_cum_pnl (backtest thr rows)
                 = map Fin (Series.cumsum_from 0 qs)).
  { change (f_cum_pnl (backtest thr rows))
      with (fcumsum_from (Fin 0) (f_pnl (backtest thr rows))).
    rewrite Hq. apply fcumsum_finite. }
  unfold performance. rewrite Hcum.
  destruct qs as [| q qs]; [contradiction |].
  cbn [Series.cumsum_from map].
  set (cum := Fin (0 + q) :: map Fin (Series.cumsum_from (0 + q) qs)).
  assert (Hgap : Forall finite_nonnegative
                   (map (fun '(m, c) => NP.sub m c)
                        (combine (fcummax_from None cum) cum))).
  { unfold cum. cbn [fcummax_from Series.is_nan combine map].
    constructor.
    - exists (0 + q + - (0 + q)). split; [reflexivity | lra].
    - apply cummax_gap_nonnegative. }
  assert (Hgne : map (fun '(m, c) => NP.sub m c)
                     (combine (fcummax_from None cum) cum) <> []).
  { unfold cum. cbn [fcummax_from Series.is_nan combine map]. discriminate. }
  destruct (smax_nonnegative _ Hgne Hgap) as (d & Hd & Hd0).
  eexists. exists (q :: qs), d.
  split; [reflexivity |]. split; [exact Hq |].
  cbn [total_pnl maximum_drawdown]. split; [| split; assumption].
  unfold cum.
  change (Fin (0 + q) :: map Fin (Series.cumsum_from (0 + q) qs))
    with (map Fin (Series.cumsum_from 0 (q :: qs))).
  apply last_cumsum_from. discriminate.
Qed.

Lemma performance_after_backtest_witness :
  exists (m : metrics) (d : R),
    performance
      (backtest (3 / 2) [mk_row (Fin 0) (Fin 0) NaN;
                         mk_row (Fin 4) (Fin 1) (Fin 2)]) = Some m /\
    maximum_drawdown m = Fin d /\ 0 <= d.
Proof.
  destruct (proj2 (performance_after_backtest (3 / 2)
                     [mk_row (Fin 0) (Fin 0) NaN;
                      mk_row (Fin 4) (Fin 1) (Fin 2)]))
    as (m & qs & d & E & _ & _ & Hd & Hd0);
    [discriminate | repeat constructor; eexists; reflexivity |].
  exists m, d. repeat split; assumption.
Defined.

End PerformanceProps.
